(** * Nexus pipeline: a shallow embedding of [ex2/nexus_pipeline.py]

    The Python module defines three stages, an abstract pipeline with a
    recovering stage loop, three adapters and a manager with two
    orchestration modes.  Python objects are mutable and shared by
    reference, so adapters live in a heap indexed by references, and the
    manager holds references.  [print] is modelled as a list of emitted
    lines; exceptions as an outcome next to the normal return.  The
    conversion of a value to text, in an f-string or by [print], raises
    [ValueError] on an integer of more than 4300 digits. *)

From Stdlib Require Import ZArith String List Lia DecimalString.
From stdpp Require Import base option list gmap strings.

Local Open Scope string_scope.
Local Open Scope Z_scope.
Local Open Scope list_scope.

(** ** Python values and exceptions *)

(** The values the pipeline is fed: [None], booleans, integers and strings. *)
Inductive Value : Type :=
  | VNone
  | VBool (b : bool)
  | VInt (z : Z)
  | VStr (s : string).

(** The line feed written ["\n"] in the source. *)
Definition nl : string := String (Ascii.ascii_of_nat 10) EmptyString.

(** The text [str(v)] builds when it builds one; an f-string placeholder
    [{v}] inserts the same text.  The conversion refuses integers of too
    many digits: see [str_fits] and [str_of]. *)
Definition py_str (v : Value) : string :=
  match v with
  | VNone => "None"
  | VBool true => "True"
  | VBool false => "False"
  | VInt z => NilZero.string_of_int (Z.to_int z)
  | VStr s => s
  end.

(** [sys.int_info.default_max_str_digits]: the longest integer, counted
    in decimal digits without the sign, that [str] converts. *)
Definition max_str_digits : nat := 4300.

(** The number of decimal digits of an integer. *)
Definition int_digits (z : Z) : nat :=
  String.length (NilZero.string_of_int (Z.to_int (Z.abs z))).

(** Whether [str(v)] and [f"{v}"] build a text: they raise [ValueError]
    on an integer of more than [max_str_digits] digits. *)
Definition str_fits (v : Value) : bool :=
  match v with
  | VInt z => (int_digits z <=? max_str_digits)%nat
  | _ => true
  end.

(** An integer of 4301 digits. *)
Definition huge : Z := 10 ^ 4300.

(** [v == s] for a string literal [s]: only an equal string compares equal. *)
Definition py_eq_str (v : Value) (s : string) : bool :=
  match v with
  | VStr t => String.eqb t s
  | _ => false
  end.

Inductive ExcClass : Type :=
  | TypeError
  | ValueError
  | KeyError
  | RuntimeError
  | ZeroDivisionError.

(** An exception instance built from one message, as in [ValueError("...")]. *)
Record PyExc : Type := MkExc { exc_class : ExcClass; exc_msg : string }.

(** [str(e)] of an exception with a single message argument. *)
Definition exc_str (e : PyExc) : string := exc_msg e.

(** The [ValueError] of an integer conversion over the limit, with the
    message of CPython 3.11.2. *)
Definition int_limit_error : PyExc :=
  MkExc ValueError
    ("Exceeds the limit (4300 digits) for integer string conversion; " +:+
     "use sys.set_int_max_str_digits() to increase the limit").

(** The classes named by [except (TypeError, ValueError)]. *)
Definition recoverable (e : PyExc) : bool :=
  match exc_class e with
  | TypeError | ValueError => true
  | _ => false
  end.

Inductive Outcome (A : Type) : Type :=
  | Returns (a : A)
  | Raises (e : PyExc).
Arguments Returns {A} a.
Arguments Raises {A} e.

(** ** Stages *)

(** The [ProcessingStage] protocol: anything with a [process] method.  A
    stage owns no state: a call prints some lines and returns or raises. *)
Record ProcessingStage : Type := MkStage {
  stage_process : Value -> list string * Outcome Value
}.

Definition InputStage : ProcessingStage :=
  MkStage (fun data =>
    (["Stage Input: Validating and parsing data"], Returns data)).

Definition TransformStage : ProcessingStage :=
  MkStage (fun data =>
    (["Stage Transform: Enriching data"],
     if py_eq_str data "FAIL"
     then Raises (MkExc ValueError "Invalid data format")
     else Returns data)).

Definition OutputStage : ProcessingStage :=
  MkStage (fun data =>
    (["Stage Output: Formatting result"], Returns data)).

(** ** Pipelines in the heap *)

(** The three concrete subclasses of [ProcessingPipeline]. *)
Inductive Adapter : Type := JSONAdapter | CSVAdapter | StreamAdapter.

Record ProcessingPipeline : Type := MkPipeline {
  adapter : Adapter;
  pipeline_id : string;
  stages : list ProcessingStage;
  processed_count : Z
}.

(** References to objects. *)
Abbreviation ref := nat.
Abbreviation Heap := (gmap nat ProcessingPipeline).

(** ** The monad of method bodies

    A computation reads and updates the heap, prints lines, and returns or
    raises.  [None] stands for a reference to no object, which Python
    cannot produce. *)
Definition M (A : Type) : Type :=
  Heap -> option (Outcome A * Heap * list string).

Definition ret {A} (a : A) : M A := fun h => Some (Returns a, h, []).

Definition bind {A B} (m : M A) (k : A -> M B) : M B := fun h =>
  match m h with
  | None => None
  | Some (Raises e, h1, o1) => Some (Raises e, h1, o1)
  | Some (Returns a, h1, o1) =>
      match k a h1 with
      | None => None
      | Some (r, h2, o2) => Some (r, h2, o1 ++ o2)
      end
  end.

Notation "x <- m ;; k" := (bind m (fun x => k))
  (at level 100, m at next level, right associativity).
Notation "m ;;; k" := (bind m (fun _ => k))
  (at level 100, right associativity).

(** [try: body / except (TypeError, ValueError) as e: handler]. *)
Definition try_except {A} (body : M A) (handler : PyExc -> M A) : M A :=
  fun h =>
  match body h with
  | None => None
  | Some (Returns a, h1, o1) => Some (Returns a, h1, o1)
  | Some (Raises e, h1, o1) =>
      if recoverable e then
        match handler e h1 with
        | None => None
        | Some (r, h2, o2) => Some (r, h2, o1 ++ o2)
        end
      else Some (Raises e, h1, o1)
  end.

Definition print (s : string) : M unit := fun h => Some (Returns tt, h, [s]).

(** The conversion of a value inside an f-string or by [print]. *)
Definition str_of (v : Value) : M string := fun h =>
  if str_fits v then Some (Returns (py_str v), h, [])
  else Some (Raises int_limit_error, h, []).

Definition call_stage (stage : ProcessingStage) (data : Value) : M Value :=
  fun h => let '(o, r) := stage_process stage data in Some (r, h, o).

Definition deref (self : ref) : M ProcessingPipeline := fun h =>
  match h !! self with
  | Some p => Some (Returns p, h, [])
  | None => None
  end.

Definition store (self : ref) (p : ProcessingPipeline) : M unit :=
  fun h => Some (Returns tt, <[self := p]> h, []).

(** ** [ProcessingPipeline] *)

(** [__init__]: a new object with no stage and a zero counter. *)
Definition init (a : Adapter) (pid : string) : ProcessingPipeline :=
  MkPipeline a pid [] 0.

Definition new (a : Adapter) (pid : string) : M ref := fun h =>
  let r := fresh (dom h) in
  Some (Returns r, <[r := init a pid]> h, []).

Definition add_stage (self : ref) (stage : ProcessingStage) : M unit :=
  p <- deref self ;;
  store self (MkPipeline (adapter p) (pipeline_id p)
                (stages p ++ [stage]) (processed_count p)).

(** The [for stage in self.stages] loop of [run_stages]. *)
Fixpoint for_stages (sts : list ProcessingStage) (current_data : Value)
  : M Value :=
  match sts with
  | [] => ret current_data
  | stage :: rest =>
      current_data' <-
        try_except (call_stage stage current_data)
          (fun e =>
             print ("Error detected in stage: " +:+ exc_str e) ;;;
             print "Recovery initiated: Switching to safe mode" ;;;
             text <- str_of current_data ;;
             print "Recovery successful. Continuing pipeline." ;;;
             ret (VStr ("[RECOVERED]" +:+ text))) ;;
      for_stages rest current_data'
  end.

Definition run_stages (self : ref) (data : Value) : M Value :=
  p <- deref self ;;
  for_stages (stages p) data.

Definition incr_count (self : ref) : M unit :=
  p <- deref self ;;
  store self (MkPipeline (adapter p) (pipeline_id p) (stages p)
                (processed_count p + 1)).

(** ** The adapters *)

Definition JSONAdapter_process (self : ref) (data : Value) : M Value :=
  print "Adapter: Processing JSON data through pipeline..." ;;;
  received <- str_of data ;;
  print ("Receiving: " +:+ received +:+ nl) ;;;
  result <- run_stages self data ;;
  incr_count self ;;;
  text <- str_of result ;;
  ret (VStr ("Processed JSON data: " +:+ text)).

Definition CSVAdapter_process (self : ref) (data : Value) : M Value :=
  print "Adapter: Processing CSV data through same pipeline..." ;;;
  received <- str_of data ;;
  print ("Receiving: " +:+ received +:+ nl) ;;;
  result <- run_stages self data ;;
  incr_count self ;;;
  text <- str_of result ;;
  ret (VStr ("Processed CSV data: " +:+ text)).

Definition StreamAdapter_process (self : ref) (data : Value) : M Value :=
  print "Adapter: Processing Stream data through same pipeline..." ;;;
  received <- str_of data ;;
  print ("Receiving: " +:+ received +:+ nl) ;;;
  result <- run_stages self data ;;
  incr_count self ;;;
  text <- str_of result ;;
  ret (VStr ("Processed STREAM data: " +:+ text)).

(** [self.process(data)]: the method of the object's class. *)
Definition process (self : ref) (data : Value) : M Value :=
  p <- deref self ;;
  match adapter p with
  | JSONAdapter => JSONAdapter_process self data
  | CSVAdapter => CSVAdapter_process self data
  | StreamAdapter => StreamAdapter_process self data
  end.

(** ** [NexusManager] *)

Record NexusManager : Type := MkManager { pipelines : list ref }.

Definition add_pipeline (self : NexusManager) (pipeline : ref)
  : NexusManager :=
  MkManager (pipelines self ++ [pipeline]).

Fixpoint for_all (pls : list ref) (data : Value) : M unit :=
  match pls with
  | [] => ret tt
  | pipeline :: rest =>
      try_except
        (result <- process pipeline data ;;
         text <- str_of result ;;
         print ("Nexus Manager result: " +:+ text +:+ nl))
        (fun e => print ("Error procesing data " +:+ exc_str e)) ;;;
      for_all rest data
  end.

Definition execute_all (self : NexusManager) (data : Value) : M unit :=
  for_all (pipelines self) data.

(** The loop of [execute_chain].  The pass counter is at most one more
    than the length of a Python list, which is below [2^63]: its
    conversion cannot reach the limit of [str]. *)
Fixpoint for_chain (pls : list ref) (i : Z) (current_data : Value)
  : M Value :=
  match pls with
  | [] => ret current_data
  | pipeline :: rest =>
      print (nl +:+ "Chain pass " +:+ py_str (VInt i) +:+ ": ") ;;;
      current_data' <- process pipeline current_data ;;
      for_chain rest (i + 1) current_data'
  end.

Definition execute_chain (self : NexusManager) (data : Value) : M Value :=
  for_chain (pipelines self) 1 data.

(** The demonstration objects of [main]. *)
Definition demo_stages : list ProcessingStage :=
  [InputStage; TransformStage; OutputStage].

Definition demo_heap : Heap :=
  <[0%nat := MkPipeline JSONAdapter "JSON_01" demo_stages 0]>
  (<[1%nat := MkPipeline CSVAdapter "CSV_01" demo_stages 0]>
  (<[2%nat := MkPipeline StreamAdapter "STREAM_01" demo_stages 0]> ∅)).

Definition demo_manager : NexusManager := MkManager [0%nat; 1%nat; 2%nat].

(** ** Specification-side definitions *)

(** Printing several lines at once, to state what a run has printed. *)
Definition emit (lines : list string) : M unit :=
  fun h => Some (Returns tt, h, lines).

(** The three lines printed by the [except] branch of [run_stages]. *)
Definition recovery_lines (e : PyExc) : list string :=
  ["Error detected in stage: " +:+ exc_str e;
   "Recovery initiated: Switching to safe mode";
   "Recovery successful. Continuing pipeline."].

(** The two lines printed before the fallback value is built. *)
Definition recovery_begun (e : PyExc) : list string :=
  ["Error detected in stage: " +:+ exc_str e;
   "Recovery initiated: Switching to safe mode"].

(** The marker-wrapped value of the fallback strategy. *)
Definition recovered (v : Value) : Value :=
  VStr ("[RECOVERED]" +:+ py_str v).

(** The first line an adapter prints, and the label of its result. *)
Definition banner (a : Adapter) : string :=
  match a with
  | JSONAdapter => "Adapter: Processing JSON data through pipeline..."
  | CSVAdapter => "Adapter: Processing CSV data through same pipeline..."
  | StreamAdapter => "Adapter: Processing Stream data through same pipeline..."
  end.

Definition label (a : Adapter) : string :=
  match a with
  | JSONAdapter => "Processed JSON data: "
  | CSVAdapter => "Processed CSV data: "
  | StreamAdapter => "Processed STREAM data: "
  end.

Definition entry_lines (a : Adapter) (data : Value) : list string :=
  [banner a; "Receiving: " +:+ py_str data +:+ nl].

(** The object after [self.processed_count += 1]. *)
Definition bump (p : ProcessingPipeline) : ProcessingPipeline :=
  MkPipeline (adapter p) (pipeline_id p) (stages p) (processed_count p + 1).

(** The counter of the object at a reference. *)
Definition count_at (h : Heap) (r : ref) : option Z :=
  processed_count <$> h !! r.

(** The left fold the specification describes for [execute_chain]:
    thread the current value through [process], adapter by adapter. *)
Definition chain_fold (pls : list ref) (data : Value) : M Value :=
  fold_left (fun acc pipeline => current <- acc ;; process pipeline current)
            pls (ret data).

(** What a computation leaves behind apart from the printed lines. *)
Definition silent {A} (r : option (Outcome A * Heap * list string))
  : option (Outcome A * Heap) :=
  match r with
  | Some (a, h, _) => Some (a, h)
  | None => None
  end.

(** The line [execute_all] prints for a result, and the line
    [execute_chain] prints before its [i]-th pass. *)
Definition result_line (result : Value) : string :=
  "Nexus Manager result: " +:+ py_str result +:+ nl.

Definition pass_line (i : Z) : string :=
  nl +:+ "Chain pass " +:+ py_str (VInt i) +:+ ": ".

(** What [execute_all] prints for a list of results. *)
Definition fan_out_lines (results : list (Value * list string))
  : list string :=
  concat (map (fun res => res.2 ++ [result_line res.1]) results).

(** How many times a reference is registered in a manager's list. *)
Definition occurrences (r : ref) (pls : list ref) : nat :=
  count_occ Nat.eq_dec pls r.


(** Every object is still there and no counter went down. *)
Definition counters_le (h h' : Heap) : Prop :=
  forall r p, h !! r = Some p ->
    exists p', h' !! r = Some p' /\ processed_count p <= processed_count p'.

(** Two heaps holding the same objects up to their counters. *)
Definition same_code (h hc : Heap) : Prop :=
  forall r, (fun p => (adapter p, stages p)) <$> h !! r =
            (fun p => (adapter p, stages p)) <$> hc !! r.

(** ** The calls of a client *)

(** The calls a client can make.  [add_pipeline] is not among them: it
    builds a new manager value and has no access to the heap. *)
Inductive Call : Type :=
  | CallNew (a : Adapter) (pid : string)
  | CallAddStage (self : ref) (stage : ProcessingStage)
  | CallRunStages (self : ref) (data : Value)
  | CallProcess (self : ref) (data : Value)
  | CallExecuteAll (m : NexusManager) (data : Value)
  | CallExecuteChain (m : NexusManager) (data : Value).

(** The heap a computation leaves, whether it returned or raised. *)
Definition heap_after {A} (m : M A) (h : Heap) : option Heap :=
  match m h with
  | Some (_, h', _) => Some h'
  | None => None
  end.

Definition call (c : Call) : Heap -> option Heap :=
  match c with
  | CallNew a pid => heap_after (new a pid)
  | CallAddStage self stage => heap_after (add_stage self stage)
  | CallRunStages self data => heap_after (run_stages self data)
  | CallProcess self data => heap_after (process self data)
  | CallExecuteAll m data => heap_after (execute_all m data)
  | CallExecuteChain m data => heap_after (execute_chain m data)
  end.

Fixpoint calls (cs : list Call) (h : Heap) : option Heap :=
  match cs with
  | [] => Some h
  | c :: rest =>
      match call c h with
      | Some h' => calls rest h'
      | None => None
      end
  end.

(** ** Objects for the examples *)

(** A stage that raises [e] whatever it is given. *)
Definition raising_stage (e : PyExc) : ProcessingStage :=
  MkStage (fun _ => (["Stage Faulty: giving up"], Raises e)).

Definition json_demo : ProcessingPipeline :=
  MkPipeline JSONAdapter "JSON_01" demo_stages 0.

(** A CSV adapter whose second stage raises a [KeyError]. *)
Definition csv_broken : ProcessingPipeline :=
  MkPipeline CSVAdapter "CSV_02"
    [InputStage; raising_stage (MkExc KeyError "missing column"); OutputStage]
    0.

Definition broken_heap : Heap :=
  <[0%nat := json_demo]> (<[1%nat := csv_broken]>
  (<[2%nat := MkPipeline StreamAdapter "STREAM_01" demo_stages 0]> ∅)).

Definition demo_lines : list string :=
  ["Stage Input: Validating and parsing data";
   "Stage Transform: Enriching data";
   "Stage Output: Formatting result"].

(** ** The program [main] *)

(** The loop printing one statistics line per registered pipeline. *)
Fixpoint for_statistics (pls : list ref) : M unit :=
  match pls with
  | [] => ret tt
  | pipeline :: rest =>
      p <- deref pipeline ;;
      count <- str_of (VInt (processed_count p)) ;;
      print ("Pipeline " +:+ pipeline_id p +:+ ": " +:+ count) ;;;
      for_statistics rest
  end.

Definition main : M unit :=
  print "=== CODE NEXUS - ENTERPRISE PIPELINE SYSTEM ===" ;;;
  print "Initializing Nexus Manager..." ;;;
  let manager := MkManager [] in
  print "Creating json pipeline with 3 stages" ;;;
  json_pipeline <- new JSONAdapter "JSON_01" ;;
  add_stage json_pipeline InputStage ;;;
  add_stage json_pipeline TransformStage ;;;
  add_stage json_pipeline OutputStage ;;;
  print "Creating csv pipeline with 3 stages" ;;;
  csv_pipeline <- new CSVAdapter "CSV_01" ;;
  add_stage csv_pipeline InputStage ;;;
  add_stage csv_pipeline TransformStage ;;;
  add_stage csv_pipeline OutputStage ;;;
  print "Creating stream pipeline with 3 stages" ;;;
  stream_pipeline <- new StreamAdapter "STREAM_01" ;;
  add_stage stream_pipeline InputStage ;;;
  add_stage stream_pipeline TransformStage ;;;
  add_stage stream_pipeline OutputStage ;;;
  print "Adding 3 pipelines to Pipeline Manager" ;;;
  let manager := add_pipeline manager json_pipeline in
  let manager := add_pipeline manager csv_pipeline in
  let manager := add_pipeline manager stream_pipeline in
  print "Using dummy data" ;;;
  let input_data := VStr "TEST DATA" in
  print (nl +:+ "=== Multi-Format Data Processing ===") ;;;
  print ("Calling all pipelines. Each pipeline has 3 stages." +:+ nl) ;;;
  execute_all manager input_data ;;;
  print (nl +:+ "=== Statistics ===") ;;;
  for_statistics (pipelines manager) ;;;
  print (nl +:+ "=== Pipeline Chaining Demo ===") ;;;
  print "Calling all pipelines chaining output -> input" ;;;
  final <- execute_chain manager input_data ;;
  text <- str_of final ;;
  print ("Chain result: " +:+ text) ;;;
  print (nl +:+ "=== Statistics ===") ;;;
  for_statistics (pipelines manager) ;;;
  print (nl +:+ "=== Error Recovery Test ===") ;;;
  print ("Simulating pipeline failure..." +:+ nl) ;;;
  execute_all manager (VStr "FAIL").

(** ** Predicates for the further properties *)

(** Stages that raise a [TypeError] or [ValueError] on every input. *)
Definition always_recovers (sts : list ProcessingStage) : Prop :=
  forall stage v, stage ∈ sts ->
    exists o e, stage_process stage v = (o, Raises e) /\ recoverable e = true.

(** Every listed reference holds a pipeline with the stages Input,
    Transform, Output. *)
Definition all_demo (h : Heap) (pls : list ref) : Prop :=
  forall r, r ∈ pls ->
    exists p, h !! r = Some p /\ stages p = demo_stages.

(** The adapter classes of the objects behind a list of references. *)
Definition adapters_of (h : Heap) (pls : list ref) : list Adapter :=
  omap (fun r => adapter <$> h !! r) pls.

(** The value a pipeline with the demonstration stages leaves of [x]. *)
Definition demo_result (x : Value) : Value :=
  if py_eq_str x "FAIL" then recovered x else x.

(** The result of [process] for an adapter class and a stage result. *)
Definition wrap (a : Adapter) (v : Value) : Value :=
  VStr (label a +:+ py_str v).

(** The object after [self.stages.append(stage)]. *)
Definition with_stage (p : ProcessingPipeline) (stage : ProcessingStage)
  : ProcessingPipeline :=
  MkPipeline (adapter p) (pipeline_id p) (stages p ++ [stage])
             (processed_count p).

(** The statistics lines among the printed lines. *)
Definition statistics_lines (out : list string) : list string :=
  filter (fun line => String.prefix "Pipeline " line = true) out.

(** Stages whose returned values [str] converts. *)
Definition fitting (sts : list ProcessingStage) : Prop :=
  forall stage v o w,
    stage ∈ sts -> stage_process stage v = (o, Returns w) ->
    str_fits w = true.

(** A CSV adapter whose first stage raises a [TypeError], and a JSON
    adapter whose first stage raises a [ValueError]. *)
Definition csv_typed : ProcessingPipeline :=
  MkPipeline CSVAdapter "CSV_04"
    [raising_stage (MkExc TypeError "not a table"); OutputStage] 0.

Definition json_valued : ProcessingPipeline :=
  MkPipeline JSONAdapter "JSON_04"
    [InputStage; raising_stage (MkExc ValueError "bad value")] 0.

Definition typed_heap : Heap :=
  <[0%nat := csv_typed]> (<[1%nat := json_valued]> ∅).

(** * Data streams: [ex1/data_stream.py]

    Batches are Python lists of the values above.  The methods that
    divide ([SensorStream.process_batch], and [process_streams], which
    calls it) compute with floating-point numbers and are left out. *)

Module Streams.

(** The concrete subclasses of [DataStream]. *)
Inductive StreamClass : Type := SensorStream | TransactionStream | EventStream.

Record DataStream : Type := MkStream {
  class : StreamClass;
  stream_id : string;
  processed_count : Z
}.

(** [__init__]: the counter starts at zero. *)
Definition init (c : StreamClass) (stream_id : string) : DataStream :=
  MkStream c stream_id 0.

(** The integer a value stands for in arithmetic and comparisons: [bool]
    is a subclass of [int]; on [None] and on strings they raise
    [TypeError], which is [None] here. *)
Definition as_number (v : Value) : option Z :=
  match v with
  | VInt z => Some z
  | VBool true => Some 1
  | VBool false => Some 0
  | VNone | VStr _ => None
  end.

(** [sum(data_batch)]: add the items to 0 from left to right. *)
Fixpoint sum_from (acc : Z) (data_batch : list Value) : option Z :=
  match data_batch with
  | [] => Some acc
  | data :: rest =>
      match as_number data with
      | Some z => sum_from (acc + z) rest
      | None => None
      end
  end.

Definition py_sum (data_batch : list Value) : option Z := sum_from 0 data_batch.

(** [needle in hay] for two strings. *)
Fixpoint contains (needle hay : string) : bool :=
  String.prefix needle hay ||
  match hay with
  | EmptyString => false
  | String _ rest => contains needle rest
  end.

(** ["error" in data]: a [TypeError] on what is not a string. *)
Definition has_error (data : Value) : option bool :=
  match data with
  | VStr s => Some (contains "error" s)
  | _ => None
  end.

(** [[data for data in data_batch if cond(data)]], where the condition can
    raise a [TypeError]. *)
Fixpoint comprehension (cond : Value -> option bool) (data_batch : list Value)
  : option (list Value) :=
  match data_batch with
  | [] => Some []
  | data :: rest =>
      match cond data with
      | None => None
      | Some keep =>
          match comprehension cond rest with
          | None => None
          | Some kept => Some (if keep then data :: kept else kept)
          end
      end
  end.

(** [try: return [comprehension] / except TypeError: return data_batch]. *)
Definition guarded (cond : Value -> option bool) (data_batch : list Value)
  : list Value :=
  match comprehension cond data_batch with
  | Some kept => kept
  | None => data_batch
  end.

Definition SensorStream_filter_data (data_batch : list Value)
  (criteria : option string) : list Value :=
  if bool_decide (criteria = Some "high")
  then guarded (fun data => (fun z => 30 <? z) <$> as_number data) data_batch
  else if bool_decide (criteria = Some "standard")
  then guarded (fun data => (fun z => z <=? 30) <$> as_number data) data_batch
  else data_batch.

Definition TransactionStream_filter_data (data_batch : list Value)
  (criteria : option string) : list Value :=
  match criteria with
  | None => data_batch
  | Some c =>
      if String.eqb c "positive"
      then guarded (fun data => (fun z => 0 <=? z) <$> as_number data)
                   data_batch
      else if String.eqb c "negative"
      then guarded (fun data => (fun z => z <? 0) <$> as_number data)
                   data_batch
      else data_batch
  end.

Definition EventStream_filter_data (data_batch : list Value)
  (criteria : option string) : list Value :=
  match criteria with
  | None => data_batch
  | Some c =>
      if String.eqb c "error"
      then guarded has_error data_batch
      else if String.eqb c "info"
      then guarded (fun data => negb <$> has_error data) data_batch
      else data_batch
  end.

(** [stream.filter_data(batch, criteria)]: the method of the class. *)
Definition filter_data (self : DataStream) (data_batch : list Value)
  (criteria : option string) : list Value :=
  match class self with
  | SensorStream => SensorStream_filter_data data_batch criteria
  | TransactionStream => TransactionStream_filter_data data_batch criteria
  | EventStream => EventStream_filter_data data_batch criteria
  end.

(** [len(data_batch)] as a Python integer.  A list holds fewer than
    [2^63] items, so the conversion of a length always succeeds. *)
Definition len (data_batch : list Value) : Z := Z.of_nat (length data_batch).

(** [TransactionStream.process_batch]: what the call returns or raises,
    and the object after the call.  The counter is increased before the
    report is formatted, and [except TypeError] does not catch the
    [ValueError] of a total with too many digits. *)
Definition TransactionStream_process_batch (self : DataStream)
  (data_batch : list Value) : Outcome string * DataStream :=
  match py_sum data_batch with
  | Some total =>
      (if str_fits (VInt total)
       then Returns ("[" +:+ stream_id self +:+ "] " +:+
                     py_str (VInt (len data_batch)) +:+
                     " operations processed, net flow: " +:+
                     py_str (VInt total))
       else Raises int_limit_error,
       MkStream (class self) (stream_id self)
                (processed_count self + len data_batch))
  | None =>
      (Returns ("[" +:+ stream_id self +:+ "] Invalid transaction data"),
       self)
  end.

(** The events that are strings containing ["error"]. *)
Definition is_error_event (event : Value) : bool :=
  match event with
  | VStr s => contains "error" s
  | _ => false
  end.

(** [EventStream.process_batch]: only lengths are formatted, and the
    length test cannot raise on a list. *)
Definition EventStream_process_batch (self : DataStream)
  (data_batch : list Value) : string * DataStream :=
  let total := len data_batch in
  let error_count := len (List.filter is_error_event data_batch) in
  ("[" +:+ stream_id self +:+ "] " +:+ py_str (VInt total) +:+
   " events processed, " +:+ py_str (VInt error_count) +:+ " error(s)",
   MkStream (class self) (stream_id self) (processed_count self + total)).

(** [get_stats]: the dictionary, as its items in insertion order. *)
Definition get_stats (self : DataStream) : list (string * Value) :=
  [("stream_id",
    VStr (match class self with
          | SensorStream => "Sensor: "
          | TransactionStream => "Transactions: "
          | EventStream => "Events: "
          end +:+ stream_id self));
   ("processed_count", VInt (processed_count self))].

(** [StreamProcessor.filter_streams]: the lines it prints. *)
Fixpoint filter_streams (streams : list DataStream)
  (data_map : gmap string (list Value)) (criteria_map : gmap string string)
  : list string :=
  match streams with
  | [] => []
  | stream :: rest =>
      let batch := default [] (data_map !! stream_id stream) in
      let criteria := criteria_map !! stream_id stream in
      let filtered := filter_data stream batch criteria in
      (stream_id stream +:+ ": " +:+ py_str (VInt (len filtered)) +:+
       " filtered item(s)") :: filter_streams rest data_map criteria_map
  end.

(** The integers and booleans: the items on which arithmetic and
    comparisons with an integer work.  Floats are not among the values
    of the model. *)
Definition is_number (v : Value) : Prop := is_Some (as_number v).

(** Whether an item is a number that passes a test. *)
Definition number_is (test : Z -> bool) (data : Value) : bool :=
  match as_number data with
  | Some z => test z
  | None => false
  end.

Definition is_string (v : Value) : Prop :=
  match v with VStr _ => True | _ => False end.

(** The demonstration data of [main], with integers for the amounts. *)
Definition demo_streams : list DataStream :=
  [init SensorStream "SENSOR_001"; init TransactionStream "TRANS_001";
   init EventStream "EVENT_001"].

Definition demo_data : gmap string (list Value) :=
  <["SENSOR_001" := [VInt 22; VInt 50; VInt 21]]>
  (<["TRANS_001" := [VInt 100; VInt 150; VInt (-75)]]>
  (<["EVENT_001" := [VStr "login"; VStr "error"; VStr "logout"]]> ∅)).

Definition demo_criteria : gmap string string :=
  <["SENSOR_001" := "high"]> (<["TRANS_001" := "negative"]>
  (<["EVENT_001" := "error"]> ∅)).

End Streams.

(** * Data processors: [ex0/stream_processor.py]

    [NumericProcessor] averages with floating-point division and is left
    out; the text and log processors work on strings. *)

Module Processors.

(** The concrete subclasses of [DataProcessor]. *)
Inductive ProcessorClass : Type :=
  NumericProcessor | TextProcessor | LogProcessor.

(** [data.find(needle) > -1]. *)
Definition found (needle data : string) : bool := Streams.contains needle data.

(** [data[n:]]. *)
Fixpoint slice_from (n : nat) (data : string) : string :=
  match n, data with
  | O, _ => data
  | S _, EmptyString => EmptyString
  | S n', String _ rest => slice_from n' rest
  end.

(** [TextProcessor.validate]: the printed line and the result.  Only a
    string has a [capitalize] method. *)
Definition TextProcessor_validate (data : Value) : list string * bool :=
  match data with
  | VStr _ => (["Validation: Text data verified"], true)
  | _ => (["Not a string"], false)
  end.

(** The characters [str.split()] separates words at, among the first 256
    code points. *)
Definition is_space (c : Ascii.ascii) : bool :=
  let n := Ascii.nat_of_ascii c in
  ((9 <=? n) && (n <=? 13) || (28 <=? n) && (n <=? 32) ||
   (n =? 133) || (n =? 160))%nat.

(** [len(data.split())]: the number of maximal runs of characters that
    are not spaces; [in_word] tells whether the previous character was
    part of a word. *)
Fixpoint count_words (in_word : bool) (data : string) : nat :=
  match data with
  | EmptyString => 0
  | String c rest =>
      if is_space c then count_words false rest
      else if in_word then count_words true rest
      else S (count_words true rest)
  end.

(** [TextProcessor.process]: the two numbers it formats are lengths,
    which [str] always converts. *)
Definition TextProcessor_process (data : string) : string :=
  "Processed text: " +:+ py_str (VInt (Z.of_nat (String.length data))) +:+
  " chars, " +:+ py_str (VInt (Z.of_nat (count_words false data))) +:+
  " words".

Definition LogProcessor_validate (data : Value) : list string * bool :=
  match data with
  | VStr s =>
      if found "ERROR" s || found "INFO" s
      then (["Validation: Log entry verified"], true)
      else ([], false)
  | _ => (["Not a log entry"], false)
  end.

Definition LogProcessor_process (data : string) : string :=
  if found "ERROR" data
  then "[ALERT] ERROR level detected: " +:+ slice_from 7 data
  else if found "INFO" data
  then "[INFO] INFO level detected: " +:+ slice_from 6 data
  else "".

(** [format_output]: only the log processor overrides it. *)
Definition format_output (self : ProcessorClass) (result : string) : string :=
  match self with
  | LogProcessor => "Overiden log:" +:+ result
  | NumericProcessor | TextProcessor => result
  end.

End Processors.

(** ** Laws of the monad *)

Lemma bind_ret_l {A B} (a : A) (k : A -> M B) h :
  bind (ret a) k h = k a h.
Proof.
  unfold bind, ret. destruct (k a h) as [[[r h2] o2]|]; reflexivity.
Qed.

Lemma bind_assoc {A B C} (m : M A) (f : A -> M B) (g : B -> M C) h :
  bind (bind m f) g h = bind m (fun a => bind (f a) g) h.
Proof.
  unfold bind. destruct (m h) as [[[[a|e] h1] o1]|]; try reflexivity.
  destruct (f a h1) as [[[[b|e] h2] o2]|]; try reflexivity.
  destruct (g b h2) as [[[r h3] o3]|]; try reflexivity.
  by rewrite app_assoc.
Qed.

Lemma bind_ext {A B} (m : M A) (f g : A -> M B) h :
  (forall a h', f a h' = g a h') -> bind m f h = bind m g h.
Proof.
  intros E. unfold bind. destruct (m h) as [[[[a|e] h1] o1]|]; try reflexivity.
  by rewrite E.
Qed.

Lemma bind_emit {A} (lines : list string) (m : M A) h r h' o :
  m h = Some (r, h', o) ->
  bind (emit lines) (fun _ => m) h = Some (r, h', lines ++ o).
Proof. intros E. unfold bind, emit. by rewrite E. Qed.

(** ** The conversion to text *)

Lemma str_of_fits v h :
  str_fits v = true -> str_of v h = Some (Returns (py_str v), h, []).
Proof. intros F. unfold str_of. by rewrite F. Qed.

Lemma str_of_overflow v h :
  str_fits v = false -> str_of v h = Some (Raises int_limit_error, h, []).
Proof. intros F. unfold str_of. by rewrite F. Qed.

Lemma huge_overflows : str_fits (VInt huge) = false.
Proof. vm_compute. reflexivity. Qed.

Lemma recoverable_int_limit : recoverable int_limit_error = true.
Proof. reflexivity. Qed.

(** ** The stage loop *)

(** One iteration of the loop, by the outcome of the stage. *)
Lemma for_stages_cons_returns stage rest x o v h :
  stage_process stage x = (o, Returns v) ->
  for_stages (stage :: rest) x h = bind (emit o) (fun _ => for_stages rest v) h.
Proof.
  intros E. simpl. unfold bind, try_except, call_stage, emit. rewrite E.
  reflexivity.
Qed.

Lemma for_stages_cons_recovers stage rest x o e h :
  stage_process stage x = (o, Raises e) -> recoverable e = true ->
  str_fits x = true ->
  for_stages (stage :: rest) x h =
  bind (emit (o ++ recovery_lines e))
       (fun _ => for_stages rest (recovered x)) h.
Proof.
  intros E R F. simpl.
  unfold bind, try_except, call_stage, emit, print, ret, str_of.
  rewrite E, R, F. reflexivity.
Qed.

(** The fallback value cannot be built: the conversion's [ValueError]
    is raised inside the handler and leaves the loop. *)
Lemma for_stages_cons_overflow stage rest x o e h :
  stage_process stage x = (o, Raises e) -> recoverable e = true ->
  str_fits x = false ->
  for_stages (stage :: rest) x h =
  Some (Raises int_limit_error, h, o ++ recovery_begun e).
Proof.
  intros E R F. simpl.
  unfold bind, try_except, call_stage, emit, print, ret, str_of.
  rewrite E, R, F. reflexivity.
Qed.

Lemma for_stages_cons_fatal stage rest x o e h :
  stage_process stage x = (o, Raises e) -> recoverable e = false ->
  for_stages (stage :: rest) x h = Some (Raises e, h, o).
Proof.
  intros E R. simpl. unfold bind, try_except, call_stage. rewrite E, R.
  reflexivity.
Qed.

(** The loop never touches the heap and never gets stuck. *)
Lemma for_stages_pure sts :
  forall x, exists r o, forall h, for_stages sts x h = Some (r, h, o).
Proof.
  induction sts as [|stage rest IH]; intros x.
  - exists (Returns x), []. reflexivity.
  - destruct (stage_process stage x) as [o [v|e]] eqn:E.
    + destruct (IH v) as (r & o' & H). exists r, (o ++ o'). intros h.
      rewrite (for_stages_cons_returns _ _ _ _ _ _ E).
      by apply bind_emit.
    + destruct (recoverable e) eqn:R; [destruct (str_fits x) eqn:F|].
      * destruct (IH (recovered x)) as (r & o' & H).
        exists r, ((o ++ recovery_lines e) ++ o'). intros h.
        rewrite (for_stages_cons_recovers _ _ _ _ _ _ E R F).
        by apply bind_emit.
      * exists (Raises int_limit_error), (o ++ recovery_begun e). intros h.
        by apply for_stages_cons_overflow.
      * exists (Raises e), o. intros h.
        by apply for_stages_cons_fatal.
Qed.

Lemma for_stages_heap sts x h r h' o :
  for_stages sts x h = Some (r, h', o) -> h' = h.
Proof.
  destruct (for_stages_pure sts x) as (r' & o' & H). rewrite H.
  congruence.
Qed.

Lemma for_stages_any_heap sts x h1 h2 r o :
  for_stages sts x h1 = Some (r, h1, o) ->
  for_stages sts x h2 = Some (r, h2, o).
Proof.
  destruct (for_stages_pure sts x) as (r' & o' & H). rewrite !H.
  congruence.
Qed.

Lemma for_stages_app pre post x h :
  for_stages (pre ++ post) x h =
  bind (for_stages pre x) (fun v => for_stages post v) h.
Proof.
  revert x h. induction pre as [|stage pre IH]; intros x h.
  - cbn [app for_stages]. by rewrite bind_ret_l.
  - change ((stage :: pre) ++ post) with (stage :: (pre ++ post)).
    cbn [for_stages]. rewrite bind_assoc. apply bind_ext.
    intros a h'. apply IH.
Qed.

(** What leaves the loop is an exception of a stage, of a class the
    loop does not catch, or the conversion error of a fallback value
    that could not be built after a stage's [TypeError] or
    [ValueError]. *)
Lemma for_stages_raises sts :
  forall x h e h' o,
    for_stages sts x h = Some (Raises e, h', o) ->
    (recoverable e = false /\
     exists stage v o', stage ∈ sts /\ stage_process stage v = (o', Raises e))
    \/
    (e = int_limit_error /\
     exists stage v o' e',
       stage ∈ sts /\ stage_process stage v = (o', Raises e') /\
       recoverable e' = true /\ str_fits v = false).
Proof.
  induction sts as [|stage rest IH]; intros x h e h' o.
  - simpl. unfold ret. congruence.
  - assert (forall r2 h2 o2 y,
               for_stages rest y h = Some (r2, h2, o2) ->
               r2 = Raises e ->
               (recoverable e = false /\
                exists s v o', s ∈ stage :: rest /\
                               stage_process s v = (o', Raises e)) \/
               (e = int_limit_error /\
                exists s v o' e',
                  s ∈ stage :: rest /\ stage_process s v = (o', Raises e') /\
                  recoverable e' = true /\ str_fits v = false)) as Rest.
    { intros r2 h2 o2 y F ->.
      destruct (IH _ _ _ _ _ F)
        as [(R & s & v & o' & I & P)|(-> & s & v & o' & e' & I & P & R & N)].
      - left. split; [done|]. exists s, v, o'. split; [by right | done].
      - right. split; [done|]. exists s, v, o', e'.
        split; [by right | done]. }
    destruct (stage_process stage x) as [o1 [v|e1]] eqn:E.
    + rewrite (for_stages_cons_returns _ _ _ _ _ _ E).
      unfold bind, emit.
      destruct (for_stages rest v h) as [[[r2 h2] o2]|] eqn:F; [|congruence].
      intros [= -> -> <-]. eapply Rest; eauto.
    + destruct (recoverable e1) eqn:R; [destruct (str_fits x) eqn:N|].
      * rewrite (for_stages_cons_recovers _ _ _ _ _ _ E R N).
        unfold bind, emit.
        destruct (for_stages rest (recovered x) h) as [[[r2 h2] o2]|] eqn:F;
          [|congruence].
        intros [= -> -> <-]. eapply Rest; eauto.
      * rewrite (for_stages_cons_overflow _ _ _ _ _ _ E R N).
        intros [= <- <- <-]. right. split; [done|].
        exists stage, x, o1, e1. split; [by left | done].
      * rewrite (for_stages_cons_fatal _ _ _ _ _ _ E R).
        intros [= <- <- <-]. left. split; [done|].
        exists stage, x, o1. split; [by left | done].
Qed.

(** With stages that return convertible values, a convertible input
    stays convertible along the run. *)
Lemma for_stages_fits sts :
  fitting sts ->
  forall x h v h' o,
    str_fits x = true ->
    for_stages sts x h = Some (Returns v, h', o) -> str_fits v = true.
Proof.
  induction sts as [|stage rest IH]; intros Fit x h v h' o N.
  - simpl. unfold ret. congruence.
  - assert (fitting rest) as Fit'.
    { intros s a b c I. apply Fit. by right. }
    destruct (stage_process stage x) as [o1 [w|e1]] eqn:E.
    + rewrite (for_stages_cons_returns _ _ _ _ _ _ E).
      unfold bind, emit.
      destruct (for_stages rest w h) as [[[r2 h2] o2]|] eqn:F; [|congruence].
      intros [= -> -> <-]. eapply (IH Fit' w); [|exact F].
      eapply Fit; [by left | exact E].
    + destruct (recoverable e1) eqn:R.
      * rewrite (for_stages_cons_recovers _ _ _ _ _ _ E R N).
        unfold bind, emit.
        destruct (for_stages rest (recovered x) h) as [[[r2 h2] o2]|] eqn:F;
          [|congruence].
        intros [= -> -> <-]. by eapply (IH Fit' (recovered x)); [|exact F].
      * rewrite (for_stages_cons_fatal _ _ _ _ _ _ E R). congruence.
Qed.

(** ** [run_stages] and [process] on an object of the heap *)

Lemma run_stages_unfold h self p x :
  h !! self = Some p ->
  run_stages self x h = for_stages (stages p) x h.
Proof.
  intros L. unfold run_stages, bind, deref. rewrite L.
  destruct (for_stages (stages p) x h) as [[[[v|e] h1] o1]|]; reflexivity.
Qed.

(** [process] in one step.  The data is converted for the second line
    before any stage runs; the stage loop then decides between an
    escaping exception, which leaves the heap as it was, and a result;
    the counter is bumped before the result is converted for the label. *)
Lemma process_unfold h self p x r o :
  h !! self = Some p ->
  for_stages (stages p) x h = Some (r, h, o) ->
  process self x h =
  Some (if str_fits x then
          match r with
          | Returns v =>
              if str_fits v then
                (Returns (VStr (label (adapter p) +:+ py_str v)),
                 <[self := bump p]> h, entry_lines (adapter p) x ++ o)
              else
                (Raises int_limit_error,
                 <[self := bump p]> h, entry_lines (adapter p) x ++ o)
          | Raises e => (Raises e, h, entry_lines (adapter p) x ++ o)
          end
        else (Raises int_limit_error, h, [banner (adapter p)])).
Proof.
  intros L F. unfold process, bind, deref. rewrite L.
  destruct (adapter p) eqn:A;
    unfold JSONAdapter_process, CSVAdapter_process, StreamAdapter_process,
      incr_count, bind, print, store, ret, deref, str_of;
    (destruct (str_fits x); [|reflexivity]);
    rewrite (run_stages_unfold _ _ _ _ L), F;
    destruct r as [v|e]; rewrite ?L; unfold bump, entry_lines; rewrite ?A;
    try destruct (str_fits v);
    cbn [app banner label]; rewrite ?app_nil_r; reflexivity.
Qed.

Lemma process_dangling h self x :
  h !! self = None -> process self x h = None.
Proof. intros L. unfold process, bind, deref. by rewrite L. Qed.

(** A call that completes: the data and the result are convertible. *)
Lemma process_returns h self p x v o :
  h !! self = Some p ->
  str_fits x = true ->
  for_stages (stages p) x h = Some (Returns v, h, o) ->
  str_fits v = true ->
  process self x h =
  Some (Returns (VStr (label (adapter p) +:+ py_str v)),
        <[self := bump p]> h, entry_lines (adapter p) x ++ o).
Proof.
  intros L N F Nv. by rewrite (process_unfold _ _ _ _ _ _ L F), N, Nv.
Qed.


(** A call that raises before any stage runs. *)
Lemma process_overflow h self p x :
  h !! self = Some p ->
  str_fits x = false ->
  process self x h = Some (Raises int_limit_error, h, [banner (adapter p)]).
Proof.
  intros L N. destruct (for_stages_pure (stages p) x) as (r & o & F).
  by rewrite (process_unfold _ _ _ _ _ _ L (F h)), N.
Qed.

(** The three ways a call of [process] ends: it returns a string and has
    counted; it raises and has not counted; it raises the conversion
    error of its result and has counted. *)
Lemma process_cases h self p x :
  h !! self = Some p ->
  (exists v o,
      str_fits x = true /\ str_fits v = true /\
      for_stages (stages p) x h = Some (Returns v, h, o) /\
      process self x h =
      Some (Returns (VStr (label (adapter p) +:+ py_str v)),
            <[self := bump p]> h, entry_lines (adapter p) x ++ o)) \/
  (exists e o, process self x h = Some (Raises e, h, o)) \/
  (exists v o,
      str_fits x = true /\ str_fits v = false /\
      for_stages (stages p) x h = Some (Returns v, h, o) /\
      process self x h =
      Some (Raises int_limit_error, <[self := bump p]> h,
            entry_lines (adapter p) x ++ o)).
Proof.
  intros L. destruct (for_stages_pure (stages p) x) as (r & o & F).
  pose proof (process_unfold h self p x r o L (F h)) as P.
  destruct (str_fits x) eqn:N; [|right; left; by eexists _, _].
  destruct r as [v|e]; [|right; left; by eexists _, _].
  destruct (str_fits v) eqn:Nv.
  - left. exists v, o. auto.
  - right. right. exists v, o. auto.
Qed.

(** What [process] returns is a string. *)
Lemma process_returns_fits self x h v h' o :
  process self x h = Some (Returns v, h', o) -> str_fits v = true.
Proof.
  intros P. destruct (h !! self) as [p|] eqn:L.
  - destruct (process_cases h self p x L)
      as [(w & o1 & _ & _ & _ & Q)|[(e & o1 & Q)|(w & o1 & _ & _ & _ & Q)]];
      rewrite Q in P; [|discriminate..].
    by injection P as <- <- <-.
  - by rewrite (process_dangling _ _ _ L) in P.
Qed.

(** A call of [process] that returns has bumped the counter of its
    object and nothing else. *)
Lemma process_returns_heap self x h v h' o :
  process self x h = Some (Returns v, h', o) ->
  exists p, h !! self = Some p /\ h' = <[self := bump p]> h.
Proof.
  intros P. destruct (h !! self) as [p|] eqn:L.
  - exists p. split; [done|].
    destruct (process_cases h self p x L)
      as [(w & o1 & _ & _ & _ & Q)|[(e & o1 & Q)|(w & o1 & _ & _ & _ & Q)]];
      congruence.
  - by rewrite (process_dangling _ _ _ L) in P.
Qed.

(** An exception of a class [run_stages] does not catch comes from a
    stage, before the counter is touched. *)
Lemma process_fatal_heap self x h e h' o :
  process self x h = Some (Raises e, h', o) ->
  recoverable e = false -> h' = h.
Proof.
  intros P R. destruct (h !! self) as [p|] eqn:L.
  - destruct (process_cases h self p x L)
      as [(w & o1 & _ & _ & _ & Q)|[(e1 & o1 & Q)|(w & o1 & _ & _ & _ & Q)]];
      rewrite Q in P; try congruence.
    injection P as <- <- <-. discriminate.
  - by rewrite (process_dangling _ _ _ L) in P.
Qed.

(** Where the run stands after a prefix of the stages, one more stage
    decides how it goes on. *)
Lemma run_stages_split h self p pre stage post x v o1 o2 e :
  h !! self = Some p ->
  stages p = pre ++ stage :: post ->
  for_stages pre x h = Some (Returns v, h, o1) ->
  stage_process stage v = (o2, Raises e) ->
  run_stages self x h =
  if recoverable e
  then if str_fits v
       then bind (emit (o1 ++ o2 ++ recovery_lines e))
                 (fun _ => for_stages post (recovered v)) h
       else Some (Raises int_limit_error, h, o1 ++ o2 ++ recovery_begun e)
  else Some (Raises e, h, o1 ++ o2).
Proof.
  intros L S P E. rewrite (run_stages_unfold _ _ _ _ L), S, for_stages_app.
  unfold bind at 1. rewrite P.
  destruct (recoverable e) eqn:R; [destruct (str_fits v) eqn:N|].
  - rewrite (for_stages_cons_recovers _ _ _ _ _ _ E R N). unfold bind, emit.
    destruct (for_stages post (recovered v) h) as [[[r h2] o3]|];
      [|reflexivity].
    by rewrite <- !app_assoc.
  - by rewrite (for_stages_cons_overflow _ _ _ _ _ _ E R N).
  - by rewrite (for_stages_cons_fatal _ _ _ _ _ _ E R).
Qed.

(** ** The loops of the manager *)

Lemma for_all_cons_returns pipeline rest x h v h1 o :
  process pipeline x h = Some (Returns v, h1, o) ->
  for_all (pipeline :: rest) x h =
  bind (emit (o ++ [result_line v])) (fun _ => for_all rest x) h1.
Proof.
  intros P. pose proof (process_returns_fits _ _ _ _ _ _ P) as N.
  cbn [for_all]. unfold bind, try_except, print, emit, str_of.
  rewrite P, N. reflexivity.
Qed.

Lemma for_all_cons_fatal pipeline rest x h e h1 o :
  process pipeline x h = Some (Raises e, h1, o) ->
  recoverable e = false ->
  for_all (pipeline :: rest) x h = Some (Raises e, h1, o).
Proof.
  intros P R. cbn [for_all]. unfold bind, try_except, print.
  rewrite P, R. reflexivity.
Qed.

(** The guard of [execute_all]: a [TypeError] or [ValueError] that
    leaves [process] is reported, and the loop goes on. *)
Lemma for_all_cons_caught pipeline rest x h e h1 o :
  process pipeline x h = Some (Raises e, h1, o) ->
  recoverable e = true ->
  for_all (pipeline :: rest) x h =
  bind (emit (o ++ ["Error procesing data " +:+ exc_str e]))
       (fun _ => for_all rest x) h1.
Proof.
  intros P R. cbn [for_all]. unfold bind, try_except, print, emit.
  rewrite P, R. reflexivity.
Qed.

Lemma for_all_cons_dangling pipeline rest x h :
  h !! pipeline = None -> for_all (pipeline :: rest) x h = None.
Proof.
  intros L. cbn [for_all]. unfold bind, try_except.
  by rewrite (process_dangling _ _ _ L).
Qed.

Lemma for_all_app pre post x h :
  for_all (pre ++ post) x h =
  bind (for_all pre x) (fun _ => for_all post x) h.
Proof.
  revert h. induction pre as [|pipeline pre IH]; intros h.
  - cbn [app for_all]. by rewrite bind_ret_l.
  - change ((pipeline :: pre) ++ post) with (pipeline :: (pre ++ post)).
    cbn [for_all]. rewrite bind_assoc. apply bind_ext.
    intros a h'. apply IH.
Qed.

Lemma for_chain_cons_dangling pipeline rest i x h :
  h !! pipeline = None -> for_chain (pipeline :: rest) i x h = None.
Proof.
  intros L. cbn [for_chain]. unfold bind, print.
  by rewrite (process_dangling _ _ _ L).
Qed.

Lemma for_chain_cons_returns pipeline rest i x h v h1 o :
  process pipeline x h = Some (Returns v, h1, o) ->
  for_chain (pipeline :: rest) i x h =
  bind (emit (pass_line i :: o)) (fun _ => for_chain rest (i + 1) v) h1.
Proof.
  intros P. cbn [for_chain]. unfold bind, print, emit. rewrite P.
  by destruct (for_chain rest (i + 1) v h1) as [[[r h2] o2]|].
Qed.

Lemma for_chain_cons_raises pipeline rest i x h e h1 o :
  process pipeline x h = Some (Raises e, h1, o) ->
  for_chain (pipeline :: rest) i x h = Some (Raises e, h1, pass_line i :: o).
Proof.
  intros P. cbn [for_chain]. unfold bind, print. rewrite P. reflexivity.
Qed.

Lemma for_chain_app pre post :
  forall i x h,
    for_chain (pre ++ post) i x h =
    bind (for_chain pre i x)
         (fun v => for_chain post (i + Z.of_nat (length pre)) v) h.
Proof.
  induction pre as [|pipeline pre IH]; intros i x h.
  - cbn [app for_chain length]. rewrite bind_ret_l. f_equal. lia.
  - change ((pipeline :: pre) ++ post) with (pipeline :: (pre ++ post)).
    cbn [for_chain]. rewrite bind_assoc. apply bind_ext. intros [] h1.
    rewrite bind_assoc. apply bind_ext. intros v h2. rewrite IH.
    apply bind_ext. intros w h3. f_equal. cbn [length]. lia.
Qed.

(** ** Counters *)

(** [n] completed calls on one object. *)
Lemma iter_bump_fields n p :
  adapter (Nat.iter n bump p) = adapter p /\
  pipeline_id (Nat.iter n bump p) = pipeline_id p /\
  stages (Nat.iter n bump p) = stages p /\
  processed_count (Nat.iter n bump p) = processed_count p + Z.of_nat n.
Proof.
  induction n as [|n (Ha & Hi & Hs & Hc)].
  - cbn. split_and!; auto. lia.
  - change (Nat.iter (S n) bump p) with (bump (Nat.iter n bump p)).
    split_and!; auto.
    change (processed_count (bump (Nat.iter n bump p)))
      with (processed_count (Nat.iter n bump p) + 1).
    lia.
Qed.

Lemma iter_bump_comm n p : Nat.iter n bump (bump p) = bump (Nat.iter n bump p).
Proof.
  induction n as [|n IH]; [done|].
  change (Nat.iter (S n) bump (bump p))
    with (bump (Nat.iter n bump (bump p))).
  by rewrite IH.
Qed.

Lemma count_at_iter h h' r n :
  h' !! r = Nat.iter n bump <$> h !! r ->
  count_at h' r = (fun c => c + Z.of_nat n) <$> count_at h r.
Proof.
  intros E. unfold count_at. rewrite E. destruct (h !! r) as [p|]; [|done].
  cbn. f_equal. apply iter_bump_fields.
Qed.

Lemma occurrences_NoDup r pls :
  NoDup pls -> r ∈ pls -> occurrences r pls = 1%nat.
Proof.
  intros N I. apply NoDup_ListNoDup in N. apply list_elem_of_In in I.
  unfold occurrences.
  by apply (proj1 (NoDup_count_occ' Nat.eq_dec pls) N).
Qed.

Lemma counters_le_refl h : counters_le h h.
Proof. intros r p L. exists p. split; [done | lia]. Qed.

Lemma counters_le_trans h1 h2 h3 :
  counters_le h1 h2 -> counters_le h2 h3 -> counters_le h1 h3.
Proof.
  intros A B r p L. destruct (A r p L) as (p2 & L2 & C2).
  destruct (B r p2 L2) as (p3 & L3 & C3). exists p3. split; [done | lia].
Qed.

Lemma counters_le_bump h self p :
  h !! self = Some p -> counters_le h (<[self := bump p]> h).
Proof.
  intros L r q Lq. destruct (decide (self = r)) as [->|N].
  - rewrite lookup_insert_eq. exists (bump p). split; [done|].
    rewrite L in Lq. injection Lq as <-. cbn. lia.
  - rewrite lookup_insert_ne by done. exists q. split; [done | lia].
Qed.

Lemma process_counters_le self x h res h' o :
  process self x h = Some (res, h', o) -> counters_le h h'.
Proof.
  intros P. destruct (h !! self) as [p|] eqn:L.
  - destruct (process_cases h self p x L)
      as [(w & o1 & _ & _ & _ & Q)|[(e & o1 & Q)|(w & o1 & _ & _ & _ & Q)]];
      rewrite Q in P; injection P as <- <- <-.
    + by apply counters_le_bump.
    + apply counters_le_refl.
    + by apply counters_le_bump.
  - by rewrite (process_dangling _ _ _ L) in P.
Qed.

Lemma for_all_counters_le pls :
  forall x h res h' o,
    for_all pls x h = Some (res, h', o) -> counters_le h h'.
Proof.
  induction pls as [|pipeline rest IH]; intros x h res h' o.
  - cbn. unfold ret. intros [= <- <- <-]. apply counters_le_refl.
  - intros F.
    destruct (process pipeline x h) as [[[[v|e] h1] o1]|] eqn:P.
    + pose proof (process_counters_le _ _ _ _ _ _ P) as C.
      rewrite (for_all_cons_returns _ _ _ _ _ _ _ P) in F.
      unfold bind, emit in F.
      destruct (for_all rest x h1) as [[[r2 h2] o2]|] eqn:G; [|congruence].
      injection F as <- <- <-.
      eapply counters_le_trans; [exact C | eapply IH, G].
    + pose proof (process_counters_le _ _ _ _ _ _ P) as C.
      destruct (recoverable e) eqn:R.
      * rewrite (for_all_cons_caught _ _ _ _ _ _ _ P R) in F.
        unfold bind, emit in F.
        destruct (for_all rest x h1) as [[[r2 h2] o2]|] eqn:G; [|congruence].
        injection F as <- <- <-.
        eapply counters_le_trans; [exact C | eapply IH, G].
      * rewrite (for_all_cons_fatal _ _ _ _ _ _ _ P R) in F.
        by injection F as <- <- <-.
    + cbn [for_all] in F. unfold bind, try_except in F. by rewrite P in F.
Qed.

Lemma for_chain_counters_le pls :
  forall i x h res h' o,
    for_chain pls i x h = Some (res, h', o) -> counters_le h h'.
Proof.
  induction pls as [|pipeline rest IH]; intros i x h res h' o.
  - cbn. unfold ret. intros [= <- <- <-]. apply counters_le_refl.
  - intros F.
    destruct (process pipeline x h) as [[[[v|e] h1] o1]|] eqn:P.
    + pose proof (process_counters_le _ _ _ _ _ _ P) as C.
      rewrite (for_chain_cons_returns _ _ _ _ _ _ _ _ P) in F.
      unfold bind, emit in F.
      destruct (for_chain rest (i + 1) v h1) as [[[r2 h2] o2]|] eqn:G;
        [|congruence].
      injection F as <- <- <-.
      eapply counters_le_trans; [exact C | eapply IH, G].
    + rewrite (for_chain_cons_raises _ _ _ _ _ _ _ _ P) in F.
      injection F as <- <- <-. eapply process_counters_le, P.
    + cbn [for_chain] in F. unfold bind, print in F. by rewrite P in F.
Qed.

Lemma call_counters_le c h h' : call c h = Some h' -> counters_le h h'.
Proof.
  destruct c as [a pid|self stage|self x|self x|m x|m x];
    unfold call, heap_after.
  - unfold new. intros [= <-] r p L.
    assert (fresh (dom h) ≠ r) as N.
    { intros <-. apply (is_fresh (dom h)), elem_of_dom. by exists p. }
    rewrite lookup_insert_ne by done. exists p. split; [done | lia].
  - unfold add_stage, bind, deref, store.
    destruct (h !! self) as [p|] eqn:L; [|congruence].
    intros [= <-] r q Lq. destruct (decide (self = r)) as [->|N].
    + rewrite lookup_insert_eq. eexists. split; [done|].
      assert (p = q) as <- by congruence. cbn. lia.
    + rewrite lookup_insert_ne by done. exists q. split; [done | lia].
  - destruct (run_stages self x h) as [[[res h1] o]|] eqn:F; [|congruence].
    intros [= <-]. destruct (h !! self) as [p|] eqn:L.
    + rewrite (run_stages_unfold _ _ _ _ L) in F.
      rewrite (for_stages_heap _ _ _ _ _ _ F). apply counters_le_refl.
    + unfold run_stages, bind, deref in F. by rewrite L in F.
  - destruct (process self x h) as [[[res h1] o]|] eqn:F; [|congruence].
    intros [= <-]. eapply process_counters_le, F.
  - destruct (execute_all m x h) as [[[res h1] o]|] eqn:F; [|congruence].
    intros [= <-]. eapply for_all_counters_le, F.
  - destruct (execute_chain m x h) as [[[res h1] o]|] eqn:F; [|congruence].
    intros [= <-]. eapply for_chain_counters_le, F.
Qed.

Lemma calls_counters_le cs :
  forall h h', calls cs h = Some h' -> counters_le h h'.
Proof.
  induction cs as [|c rest IH]; intros h h'; cbn [calls].
  - intros [= <-]. apply counters_le_refl.
  - destruct (call c h) as [h1|] eqn:C; [|congruence]. intros F.
    eapply counters_le_trans; [eapply call_counters_le, C | eapply IH, F].
Qed.

(** A chain that completes has bumped every object once per occurrence
    in the manager's list. *)
Lemma for_chain_heap pls :
  forall i x h v h' o,
    for_chain pls i x h = Some (Returns v, h', o) ->
    forall r, h' !! r = Nat.iter (occurrences r pls) bump <$> h !! r.
Proof.
  induction pls as [|pipeline rest IH]; intros i x h v h' o.
  - cbn. unfold ret. intros [= <- <-] r. by destruct (h !! r).
  - intros F r.
    destruct (process pipeline x h) as [[[[w|e] h1] o1]|] eqn:P.
    + destruct (process_returns_heap _ _ _ _ _ _ P) as (p & L & ->).
      rewrite (for_chain_cons_returns _ _ _ _ _ _ _ _ P) in F.
      unfold bind, emit in F.
      destruct (for_chain rest (i + 1) _ (<[pipeline:=bump p]> h))
        as [[[r2 h2] o2]|] eqn:G; [|congruence].
      injection F as -> -> <-.
      rewrite (IH _ _ _ _ _ _ G r). unfold occurrences. cbn [count_occ].
      destruct (Nat.eq_dec pipeline r) as [->|N].
      * rewrite lookup_insert_eq, L. cbn. by rewrite iter_bump_comm.
      * by rewrite lookup_insert_ne.
    + rewrite (for_chain_cons_raises _ _ _ _ _ _ _ _ P) in F. congruence.
    + cbn [for_chain] in F. unfold bind, print in F. by rewrite P in F.
Qed.

(** ** Objects that differ by their counters only *)

Lemma same_code_refl h : same_code h h.
Proof. by intros r. Qed.

Lemma same_code_bump h hc r p :
  same_code h hc -> hc !! r = Some p -> same_code h (<[r := bump p]> hc).
Proof.
  intros S L r'. rewrite (S r'). destruct (decide (r = r')) as [->|N].
  - by rewrite lookup_insert_eq, L.
  - by rewrite lookup_insert_ne.
Qed.

(** The counters play no part in what [process] returns and prints. *)
Lemma process_same_code h hc r x v h1 o :
  same_code h hc ->
  process r x h = Some (Returns v, h1, o) ->
  exists p, hc !! r = Some p /\
            process r x hc = Some (Returns v, <[r := bump p]> hc, o).
Proof.
  intros S P. destruct (h !! r) as [p|] eqn:L.
  2: { by rewrite (process_dangling _ _ _ L) in P. }
  destruct (process_cases h r p x L)
    as [(w & o1 & N & Nw & F & Q)|[(e & o1 & Q)|(w & o1 & _ & _ & _ & Q)]];
    rewrite Q in P; [|done..].
  injection P as <- <- <-.
  pose proof (S r) as Sr. rewrite L in Sr.
  destruct (hc !! r) as [q|] eqn:Lc; [|done].
  injection Sr as A St. exists q. split; [done|].
  rewrite A, St in *.
  apply (process_returns hc r q x w o1 Lc N); [|done].
  eapply for_stages_any_heap, F.
Qed.

(** A fan-out in which every adapter completes: what it prints, and
    the heap it leaves. *)
Lemma for_all_fans_out h x pls :
  forall results hc,
    same_code h hc ->
    Forall2 (fun r res =>
               exists h1, process r x h = Some (Returns res.1, h1, res.2))
            pls results ->
    exists h',
      for_all pls x hc = Some (Returns tt, h', fan_out_lines results) /\
      forall r, h' !! r = Nat.iter (occurrences r pls) bump <$> hc !! r.
Proof.
  induction pls as [|pipeline rest IH]; intros results hc S F.
  - apply Forall2_nil_inv_l in F as ->. exists hc. split; [done|].
    intros r. by destruct (hc !! r).
  - apply Forall2_cons_inv_l in F as ([v o] & results' & (h1 & P) & F & ->).
    cbn [fst snd] in P.
    destruct (process_same_code _ _ _ _ _ _ _ S P) as (p & L & Pc).
    destruct (IH results' _ (same_code_bump _ _ _ _ S L) F) as (h' & G & H).
    exists h'. split.
    + rewrite (for_all_cons_returns _ _ _ _ _ _ _ Pc).
      unfold bind, emit. rewrite G. reflexivity.
    + intros r. rewrite (H r). unfold occurrences. cbn [count_occ].
      destruct (Nat.eq_dec pipeline r) as [->|N].
      * rewrite lookup_insert_eq, L. cbn. by rewrite iter_bump_comm.
      * by rewrite lookup_insert_ne.
Qed.

(** ** Recovery inside [run_stages] *)

(** The claim C1 as stated fails when the value the failing stage was
    given is an integer of more than 4300 digits: the stage's
    [TypeError] is caught, but the fallback value cannot be built, and
    the conversion's [ValueError] leaves [run_stages] before the next
    stage is run. *)
Lemma run_stages_recovery_counterexample :
  stage_process (raising_stage (MkExc TypeError "not a table")) (VInt huge) =
  (["Stage Faulty: giving up"], Raises (MkExc TypeError "not a table")) /\
  recoverable (MkExc TypeError "not a table") = true /\
  run_stages 0%nat (VInt huge) typed_heap =
  Some (Raises int_limit_error, typed_heap,
        ["Stage Faulty: giving up";
         "Error detected in stage: not a table";
         "Recovery initiated: Switching to safe mode"]).
Proof.
  split_and!; [reflexivity..|].
  rewrite (run_stages_split typed_heap 0%nat csv_typed []
             (raising_stage (MkExc TypeError "not a table")) [OutputStage]
             (VInt huge) (VInt huge) [] ["Stage Faulty: giving up"]
             (MkExc TypeError "not a table") eq_refl eq_refl eq_refl eq_refl).
  cbn [recoverable exc_class]. by rewrite huge_overflows.
Qed.

(** C1, amended: when a stage of the sequence raises a [TypeError] or a
    [ValueError] and [str] converts the value that stage was given (any
    value but an integer of more than 4300 digits), the run goes on with
    the stages after it, from the marker ["[RECOVERED]"] followed by that
    text; the stage is called once and what it would have returned is
    lost.  When [str] does not convert the value, its [ValueError] leaves
    [run_stages] after the first two recovery lines and no later stage
    is run. *)
Theorem run_stages_recovery h self p pre stage post x v o1 o2 e :
  h !! self = Some p ->
  stages p = pre ++ stage :: post ->
  for_stages pre x h = Some (Returns v, h, o1) ->
  stage_process stage v = (o2, Raises e) ->
  recoverable e = true ->
  run_stages self x h =
  if str_fits v
  then bind (emit (o1 ++ o2 ++ recovery_lines e))
            (fun _ => for_stages post (VStr ("[RECOVERED]" +:+ py_str v))) h
  else Some (Raises int_limit_error, h, o1 ++ o2 ++ recovery_begun e).
Proof.
  intros L S P E R.
  rewrite (run_stages_split _ _ _ _ _ _ _ _ _ _ _ L S P E), R.
  reflexivity.
Qed.

Lemma run_stages_recovery_witness :
  run_stages 0%nat (VStr "FAIL") demo_heap =
  bind (emit (["Stage Input: Validating and parsing data"] ++
              ["Stage Transform: Enriching data"] ++
              recovery_lines (MkExc ValueError "Invalid data format")))
       (fun _ => for_stages [OutputStage] (VStr "[RECOVERED]FAIL"))
       demo_heap.
Proof.
  apply (run_stages_recovery demo_heap 0%nat json_demo
           [InputStage] TransformStage [OutputStage]
           (VStr "FAIL") (VStr "FAIL")); reflexivity.
Defined.

(** ** The two classes of errors *)





(** ** The counter across the operations *)

(** C3: creating an adapter always succeeds and gives a new object
    whose [processed_count] is 0; whatever calls are made afterwards, in
    whatever order and whether they return or raise, no counter ever
    goes down; and a call of [process] that completes adds exactly 1,
    with or without a recovery inside. *)
Theorem processed_count_monotone :
  (forall a pid h,
      exists r h',
        new a pid h = Some (Returns r, h', []) /\
        h !! r = None /\
        h' !! r = Some (MkPipeline a pid [] 0) /\
        count_at h' r = Some 0) /\
  (forall cs h h' r c,
      calls cs h = Some h' -> count_at h r = Some c ->
      exists c', count_at h' r = Some c' /\ c <= c') /\
  (forall self x h v h' o c,
      process self x h = Some (Returns v, h', o) ->
      count_at h self = Some c ->
      count_at h' self = Some (c + 1)).
Proof.
  split_and!.
  - intros a pid h. exists (fresh (dom h)), (<[fresh (dom h) := init a pid]> h).
    split_and!.
    + reflexivity.
    + apply not_elem_of_dom, is_fresh.
    + by rewrite lookup_insert_eq.
    + unfold count_at. by rewrite lookup_insert_eq.
  - intros cs h h' r c F. unfold count_at.
    destruct (h !! r) as [p|] eqn:L; [|discriminate]. intros [= <-].
    destruct (calls_counters_le _ _ _ F r p L) as (p' & L' & C).
    exists (processed_count p'). by rewrite L'.
  - intros self x h v h' o c P. unfold count_at.
    destruct (process_returns_heap _ _ _ _ _ _ P) as (p & L & ->).
    rewrite L. intros [= <-]. by rewrite lookup_insert_eq.
Qed.

Lemma processed_count_monotone_witness :
  (exists r h0,
      new JSONAdapter "JSON_01" ∅ = Some (Returns r, h0, []) /\
      count_at h0 r = Some 0) /\
  (exists h',
      calls [CallAddStage 0%nat InputStage; CallAddStage 0%nat TransformStage;
             CallAddStage 0%nat OutputStage; CallProcess 0%nat (VStr "FAIL");
             CallExecuteAll (MkManager [0%nat]) (VStr "TEST DATA");
             CallExecuteChain (MkManager [0%nat]) (VStr "FAIL")]
        (<[0%nat := init JSONAdapter "JSON_01"]> ∅) = Some h' /\
      exists c', count_at h' 0%nat = Some c' /\ 0 <= c') /\
  (exists v h' o,
      process 0%nat (VStr "FAIL") demo_heap = Some (Returns v, h', o) /\
      count_at h' 0%nat = Some (0 + 1)).
Proof.
  split_and!.
  - destruct (proj1 processed_count_monotone JSONAdapter "JSON_01" ∅)
      as (r & h0 & N & _ & _ & C).
    by exists r, h0.
  - destruct (calls [CallAddStage 0%nat InputStage;
                     CallAddStage 0%nat TransformStage;
                     CallAddStage 0%nat OutputStage;
                     CallProcess 0%nat (VStr "FAIL");
                     CallExecuteAll (MkManager [0%nat]) (VStr "TEST DATA");
                     CallExecuteChain (MkManager [0%nat]) (VStr "FAIL")]
                (<[0%nat := init JSONAdapter "JSON_01"]> ∅))
      as [h'|] eqn:F; [|vm_compute in F; discriminate].
    exists h'. split; [reflexivity|].
    apply (proj1 (proj2 processed_count_monotone) _ _ _ 0%nat 0 F).
    reflexivity.
  - destruct (process 0%nat (VStr "FAIL") demo_heap)
      as [[[[v|e] h'] o]|] eqn:P; [|vm_compute in P; discriminate..].
    exists v, h', o. split; [reflexivity|].
    apply (proj2 (proj2 processed_count_monotone) _ _ _ _ _ _ 0 P).
    reflexivity.
Defined.

(** ** Chaining *)

Lemma silent_bind_ext {A B} (m : M A) (f g : A -> M B) h :
  (forall a h', silent (f a h') = silent (g a h')) ->
  silent (bind m f h) = silent (bind m g h).
Proof.
  intros E. unfold bind. destruct (m h) as [[[[a|e] h1] o1]|]; try done.
  specialize (E a h1).
  destruct (f a h1) as [[[r2 h2] o2]|], (g a h1) as [[[r3 h3] o3]|];
    cbn in *; congruence.
Qed.

Lemma silent_print {A} s (m : M A) h :
  silent (bind (print s) (fun _ => m) h) = silent (m h).
Proof. unfold bind, print. by destruct (m h) as [[[r h1] o]|]. Qed.

Lemma silent_bind_ret {A} (m : M A) h : silent (bind m ret h) = silent (m h).
Proof. unfold bind, ret. by destruct (m h) as [[[[a|e] h1] o]|]. Qed.

(** The loop of [execute_chain] is the fold, whatever was computed so far
    and wherever the pass counter stands. *)
Lemma fold_left_for_chain pls :
  forall (acc : M Value) i h,
    silent (fold_left (fun acc pipeline =>
                         current <- acc ;; process pipeline current)
                      pls acc h) =
    silent (bind acc (fun v => for_chain pls i v) h).
Proof.
  induction pls as [|pipeline rest IH]; intros acc i h.
  - cbn [fold_left]. symmetry. apply silent_bind_ret.
  - cbn [fold_left]. rewrite (IH _ (i + 1)), bind_assoc.
    apply silent_bind_ext. intros a h'. cbn [for_chain].
    symmetry. apply silent_print.
Qed.

(** C4: [execute_chain] computes the left fold of [process] over the
    manager's adapters, in their order and from the given data: same
    outcome, same heap.  With two adapters [A] then [B] whose calls
    complete it returns what [B.process(A.process(x))] returns. *)
Theorem execute_chain_is_fold m x h :
  silent (execute_chain m x h) = silent (chain_fold (pipelines m) x h) /\
  (forall A B y hA oA z hB oB,
      pipelines m = [A; B] ->
      process A x h = Some (Returns y, hA, oA) ->
      process B y hA = Some (Returns z, hB, oB) ->
      execute_chain m x h =
      Some (Returns z, hB, pass_line 1 :: oA ++ pass_line 2 :: oB)).
Proof.
  split.
  - unfold execute_chain, chain_fold.
    rewrite (fold_left_for_chain _ _ 1). by rewrite bind_ret_l.
  - intros A B y hA oA z hB oB E PA PB. unfold execute_chain. rewrite E.
    rewrite (for_chain_cons_returns _ _ _ _ _ _ _ _ PA).
    unfold bind at 1, emit.
    rewrite (for_chain_cons_returns _ _ _ _ _ _ _ _ PB).
    unfold bind, emit, for_chain, ret.
    by rewrite app_nil_r.
Qed.

Lemma execute_chain_is_fold_witness :
  execute_chain (MkManager [0%nat; 1%nat]) (VStr "TEST DATA") demo_heap =
  Some (Returns (VStr "Processed CSV data: Processed JSON data: TEST DATA"),
        <[1%nat := bump (MkPipeline CSVAdapter "CSV_01" demo_stages 0)]>
          (<[0%nat := bump json_demo]> demo_heap),
        pass_line 1 ::
          (entry_lines JSONAdapter (VStr "TEST DATA") ++
           ["Stage Input: Validating and parsing data";
            "Stage Transform: Enriching data";
            "Stage Output: Formatting result"]) ++
        pass_line 2 ::
          (entry_lines CSVAdapter (VStr "Processed JSON data: TEST DATA") ++
           ["Stage Input: Validating and parsing data";
            "Stage Transform: Enriching data";
            "Stage Output: Formatting result"])).
Proof.
  eapply (proj2 (execute_chain_is_fold (MkManager [0%nat; 1%nat])
                   (VStr "TEST DATA") demo_heap)
            0%nat 1%nat (VStr "Processed JSON data: TEST DATA"));
    reflexivity.
Defined.


(** ** Fan-out *)

(** C5: when the loop of [execute_all] has gone through the first [k-1]
    adapters and the [k]-th raises an exception of another class than
    [TypeError] and [ValueError], [execute_all] raises it there: nothing
    of the adapters after [k] is run or printed, and the heap is the one
    the first [k-1] adapters left.  Each of them that completed keeps
    its incremented counter: it stands, in the end, at least one above
    where it stood when that adapter was called; when all of them
    completed, every counter has grown by the number of times its
    adapter occurs among them. *)
Theorem execute_all_halts_on_fatal m pre k post x h h1 o1 e h2 o2 :
  pipelines m = pre ++ k :: post ->
  for_all pre x h = Some (Returns tt, h1, o1) ->
  process k x h1 = Some (Raises e, h2, o2) ->
  recoverable e = false ->
  execute_all m x h = Some (Raises e, h1, o1 ++ o2) /\
  h2 = h1 /\
  (forall pre1 j pre2 ha oa v hb ob,
      pre = pre1 ++ j :: pre2 ->
      for_all pre1 x h = Some (Returns tt, ha, oa) ->
      process j x ha = Some (Returns v, hb, ob) ->
      exists c c',
        count_at ha j = Some c /\ count_at hb j = Some (c + 1) /\
        count_at h1 j = Some c' /\ c + 1 <= c') /\
  (Forall (fun r => exists v hr o, process r x h = Some (Returns v, hr, o))
          pre ->
   forall r, count_at h1 r =
             (fun c => c + Z.of_nat (occurrences r pre)) <$> count_at h r).
Proof.
  intros E F P R.
  assert (h2 = h1) as -> by exact (process_fatal_heap _ _ _ _ _ _ P R).
  split_and!; [|done| |].
  - unfold execute_all. rewrite E, for_all_app. unfold bind. rewrite F.
    by rewrite (for_all_cons_fatal _ _ _ _ _ _ _ P R).
  - intros pre1 j pre2 ha oa v hb ob Epre Fa Pj.
    rewrite Epre, for_all_app in F. unfold bind at 1 in F. rewrite Fa in F.
    rewrite (for_all_cons_returns _ _ _ _ _ _ _ Pj) in F.
    unfold bind, emit in F.
    destruct (for_all pre2 x hb) as [[[r3 h3] o3]|] eqn:G; [|congruence].
    assert (h3 = h1) as -> by congruence.
    destruct (process_returns_heap _ _ _ _ _ _ Pj) as (p & L & ->).
    destruct (for_all_counters_le _ _ _ _ _ _ G j (bump p))
      as (p' & L' & C); [apply lookup_insert_eq|].
    exists (processed_count p), (processed_count p').
    unfold count_at. rewrite L, L', lookup_insert_eq. by split_and!.
  - intros Fc r.
    assert (exists f : ref -> Value * list string,
               Forall2 (fun r res =>
                          exists hr,
                            process r x h = Some (Returns res.1, hr, res.2))
                       pre (map f pre)) as (f & F2).
    { exists (fun r => match process r x h with
                       | Some (Returns v, _, o) => (v, o)
                       | _ => (VNone, [])
                       end).
      clear -Fc. induction Fc as [|j rest (v & hr & o & Pj) _ IH]; cbn [map].
      - constructor.
      - constructor; [|exact IH]. rewrite Pj. by exists hr. }
    destruct (for_all_fans_out h x _ _ h (same_code_refl h) F2)
      as (h' & G & H).
    assert (h' = h1) as -> by congruence.
    apply count_at_iter, H.
Qed.

Lemma execute_all_halts_on_fatal_witness :
  execute_all demo_manager (VStr "a,b") broken_heap =
  Some (Raises (MkExc KeyError "missing column"),
        <[0%nat := bump json_demo]> broken_heap,
        ((entry_lines JSONAdapter (VStr "a,b") ++
          ["Stage Input: Validating and parsing data";
           "Stage Transform: Enriching data";
           "Stage Output: Formatting result"]) ++
         [result_line (VStr "Processed JSON data: a,b")]) ++
        (entry_lines CSVAdapter (VStr "a,b") ++
         ["Stage Input: Validating and parsing data";
          "Stage Faulty: giving up"])) /\
  count_at (<[0%nat := bump json_demo]> broken_heap) 0%nat = Some 1 /\
  count_at (<[0%nat := bump json_demo]> broken_heap) 1%nat = Some 0 /\
  count_at (<[0%nat := bump json_demo]> broken_heap) 2%nat = Some 0.
Proof.
  split; [|by vm_compute].
  apply (proj1 (execute_all_halts_on_fatal demo_manager [0%nat] 1%nat
                  [2%nat] (VStr "a,b") broken_heap
                  (<[0%nat := bump json_demo]> broken_heap)
                  ((entry_lines JSONAdapter (VStr "a,b") ++ demo_lines) ++
                   [result_line (VStr "Processed JSON data: a,b")])
                  (MkExc KeyError "missing column")
                  (<[0%nat := bump json_demo]> broken_heap)
                  (entry_lines CSVAdapter (VStr "a,b") ++
                   ["Stage Input: Validating and parsing data";
                    "Stage Faulty: giving up"])
                  eq_refl eq_refl eq_refl eq_refl)).
Defined.

(** C8: when each of the [N] adapters completes [process] on [x],
    [execute_all] completes and prints [N] results, the [i]-th being what
    the [i]-th adapter's [process] returns on that same [x] from the heap
    the call started in; every counter has grown by the number of times
    its adapter is registered, so by 1 for [N] distinct adapters. *)
Theorem execute_all_fans_out m x h results :
  Forall2 (fun r res =>
             exists h1, process r x h = Some (Returns res.1, h1, res.2))
          (pipelines m) results ->
  exists h',
    execute_all m x h = Some (Returns tt, h', fan_out_lines results) /\
    length results = length (pipelines m) /\
    (forall r, count_at h' r =
               (fun c => c + Z.of_nat (occurrences r (pipelines m)))
                 <$> count_at h r) /\
    (NoDup (pipelines m) ->
     forall r, r ∈ pipelines m ->
       exists c, count_at h r = Some c /\ count_at h' r = Some (c + 1)).
Proof.
  intros F.
  destruct (for_all_fans_out h x _ _ h (fun r => eq_refl) F)
    as (h' & G & H).
  assert (forall r, count_at h' r =
                    (fun c => c + Z.of_nat (occurrences r (pipelines m)))
                      <$> count_at h r) as C.
  { intros r. apply count_at_iter, H. }
  exists h'. split_and!; [done| |done|].
  - symmetry. eapply Forall2_length, F.
  - intros N r I. rewrite C, (occurrences_NoDup _ _ N I). unfold count_at.
    destruct (h !! r) as [p|] eqn:L; [by exists (processed_count p)|].
    exfalso. apply list_elem_of_lookup in I as (i & Li).
    destruct (Forall2_lookup_l _ _ _ _ _ F Li) as (res & _ & h1 & P).
    by rewrite (process_dangling _ _ _ L) in P.
Qed.

Lemma execute_all_fans_out_witness :
  exists h',
    execute_all demo_manager (VStr "TEST DATA") demo_heap =
    Some (Returns tt, h',
          fan_out_lines
            [(VStr "Processed JSON data: TEST DATA",
              entry_lines JSONAdapter (VStr "TEST DATA") ++ demo_lines);
             (VStr "Processed CSV data: TEST DATA",
              entry_lines CSVAdapter (VStr "TEST DATA") ++ demo_lines);
             (VStr "Processed STREAM data: TEST DATA",
              entry_lines StreamAdapter (VStr "TEST DATA") ++ demo_lines)]) /\
    count_at h' 0%nat = Some 1 /\
    count_at h' 1%nat = Some 1 /\
    count_at h' 2%nat = Some 1.
Proof.
  destruct (execute_all_fans_out demo_manager (VStr "TEST DATA") demo_heap
              [(VStr "Processed JSON data: TEST DATA",
                entry_lines JSONAdapter (VStr "TEST DATA") ++ demo_lines);
               (VStr "Processed CSV data: TEST DATA",
                entry_lines CSVAdapter (VStr "TEST DATA") ++ demo_lines);
               (VStr "Processed STREAM data: TEST DATA",
                entry_lines StreamAdapter (VStr "TEST DATA") ++ demo_lines)])
    as (h' & E & _ & C & _).
  - repeat (apply List.Forall2_cons; [eexists; reflexivity|]).
    apply List.Forall2_nil.
  - exists h'. split; [exact E|]. rewrite !C. by vm_compute.
Defined.


(** ** The three stages of the demonstration *)

Lemma py_eq_str_false x s : x <> VStr s -> py_eq_str x s = false.
Proof.
  destruct x as [| | |t]; try reflexivity. intros N. cbn.
  apply String.eqb_neq. congruence.
Qed.

Lemma py_eq_str_true x s : py_eq_str x s = true -> x = VStr s.
Proof.
  destruct x as [| | |t]; try discriminate. cbn.
  intros E. apply String.eqb_eq in E. congruence.
Qed.

Lemma py_eq_str_neq x s : py_eq_str x s = false -> x <> VStr s.
Proof. intros E ->. cbn in E. by rewrite String.eqb_refl in E. Qed.

Lemma for_stages_demo_unchanged x h :
  x <> VStr "FAIL" ->
  for_stages [InputStage; TransformStage; OutputStage] x h =
  Some (Returns x, h, demo_lines).
Proof.
  intros N. cbn [for_stages].
  unfold bind, try_except, call_stage, ret. cbn [stage_process InputStage].
  cbn [stage_process TransformStage]. rewrite (py_eq_str_false _ _ N).
  reflexivity.
Qed.

(** The claim C7 as stated fails on an integer of more than 4300
    digits: it is not the sentinel, yet [process] raises the
    [ValueError] of its conversion at the second line it prints, before
    any stage has run, and does not count the call. *)
Lemma demo_stages_identity_counterexample :
  VInt huge <> VStr "FAIL" /\
  process 2%nat (VInt huge) demo_heap =
  Some (Raises int_limit_error, demo_heap,
        ["Adapter: Processing Stream data through same pipeline..."]) /\
  count_at demo_heap 2%nat = Some 0.
Proof.
  split_and!; [discriminate| |reflexivity].
  apply (process_overflow demo_heap 2%nat
           (MkPipeline StreamAdapter "STREAM_01" demo_stages 0) (VInt huge)
           eq_refl huge_overflows).
Qed.

(** C7, amended: on every input but the string ["FAIL"], the stages
    Input, Transform, Output return what they were given; a call of
    [process] on such a pipeline completes and adds exactly 1 to its
    counter when [str] converts the input (any value but an integer of
    more than 4300 digits); on such an integer [process] raises the
    conversion's [ValueError] before the stages run, and the counter is
    unchanged. *)
Theorem demo_stages_identity h self p x :
  h !! self = Some p ->
  stages p = [InputStage; TransformStage; OutputStage] ->
  x <> VStr "FAIL" ->
  run_stages self x h = Some (Returns x, h, demo_lines) /\
  (str_fits x = true ->
   process self x h =
   Some (Returns (VStr (label (adapter p) +:+ py_str x)),
         <[self := bump p]> h, entry_lines (adapter p) x ++ demo_lines) /\
   count_at (<[self := bump p]> h) self = Some (processed_count p + 1)) /\
  (str_fits x = false ->
   process self x h =
   Some (Raises int_limit_error, h, [banner (adapter p)]) /\
   count_at h self = Some (processed_count p)).
Proof.
  intros L S N.
  pose proof (for_stages_demo_unchanged x h N) as F. rewrite <- S in F.
  split_and!.
  - by rewrite (run_stages_unfold _ _ _ _ L).
  - intros Nx. split.
    + by apply process_returns.
    + unfold count_at. by rewrite lookup_insert_eq.
  - intros Nx. split.
    + by apply process_overflow.
    + unfold count_at. by rewrite L.
Qed.

Lemma demo_stages_identity_witness :
  run_stages 2%nat (VInt 42) demo_heap =
  Some (Returns (VInt 42), demo_heap, demo_lines) /\
  process 2%nat (VInt 42) demo_heap =
  Some (Returns (VStr "Processed STREAM data: 42"),
        <[2%nat := bump (MkPipeline StreamAdapter "STREAM_01" demo_stages 0)]>
          demo_heap,
        entry_lines StreamAdapter (VInt 42) ++ demo_lines) /\
  count_at
    (<[2%nat := bump (MkPipeline StreamAdapter "STREAM_01" demo_stages 0)]>
       demo_heap) 2%nat = Some (0 + 1).
Proof.
  destruct (demo_stages_identity demo_heap 2%nat
              (MkPipeline StreamAdapter "STREAM_01" demo_stages 0) (VInt 42)
              eq_refl eq_refl ltac:(discriminate)) as (R & P & _).
  split; [exact R | exact (P eq_refl)].
Defined.

(** C6: with the stages Input, Transform, Output and the input ["FAIL"],
    Transform raises a [ValueError], the run recovers with
    ["[RECOVERED]FAIL"], Output is run on it and passes it through, the
    JSON adapter returns ["Processed JSON data: [RECOVERED]FAIL"], and its
    counter is one more than before. *)
Theorem json_fail_scenario h self p :
  h !! self = Some p ->
  adapter p = JSONAdapter ->
  stages p = [InputStage; TransformStage; OutputStage] ->
  stage_process TransformStage (VStr "FAIL") =
  (["Stage Transform: Enriching data"],
   Raises (MkExc ValueError "Invalid data format")) /\
  stage_process OutputStage (VStr "[RECOVERED]FAIL") =
  (["Stage Output: Formatting result"], Returns (VStr "[RECOVERED]FAIL")) /\
  run_stages self (VStr "FAIL") h =
  Some (Returns (VStr "[RECOVERED]FAIL"), h,
        ["Stage Input: Validating and parsing data";
         "Stage Transform: Enriching data";
         "Error detected in stage: Invalid data format";
         "Recovery initiated: Switching to safe mode";
         "Recovery successful. Continuing pipeline.";
         "Stage Output: Formatting result"]) /\
  (exists o,
      process self (VStr "FAIL") h =
      Some (Returns (VStr "Processed JSON data: [RECOVERED]FAIL"),
            <[self := bump p]> h, o)) /\
  count_at (<[self := bump p]> h) self = Some (processed_count p + 1).
Proof.
  intros L A S.
  assert (for_stages (stages p) (VStr "FAIL") h =
          Some (Returns (VStr "[RECOVERED]FAIL"), h,
                ["Stage Input: Validating and parsing data";
                 "Stage Transform: Enriching data";
                 "Error detected in stage: Invalid data format";
                 "Recovery initiated: Switching to safe mode";
                 "Recovery successful. Continuing pipeline.";
                 "Stage Output: Formatting result"])) as F.
  { rewrite S. reflexivity. }
  split_and!.
  - reflexivity.
  - reflexivity.
  - by rewrite (run_stages_unfold _ _ _ _ L).
  - eexists.
    rewrite (process_returns h self p (VStr "FAIL")
               (VStr "[RECOVERED]FAIL") _ L eq_refl F eq_refl), A.
    reflexivity.
  - unfold count_at. by rewrite lookup_insert_eq.
Qed.

Lemma json_fail_scenario_witness :
  run_stages 0%nat (VStr "FAIL") demo_heap =
  Some (Returns (VStr "[RECOVERED]FAIL"), demo_heap,
        ["Stage Input: Validating and parsing data";
         "Stage Transform: Enriching data";
         "Error detected in stage: Invalid data format";
         "Recovery initiated: Switching to safe mode";
         "Recovery successful. Continuing pipeline.";
         "Stage Output: Formatting result"]) /\
  count_at (<[0%nat := bump json_demo]> demo_heap) 0%nat = Some (0 + 1).
Proof.
  destruct (json_fail_scenario demo_heap 0%nat json_demo
              eq_refl eq_refl eq_refl) as (_ & _ & R & _ & C).
  exact (conj R C).
Defined.


(** The claim C10 as stated fails on an integer of more than 4300
    digits: with no stage at all, [process] raises the [ValueError] of
    the conversion of its data and does not count the call. *)
Lemma empty_pipeline_counterexample :
  stages (init CSVAdapter "CSV_00") = [] /\
  process 0%nat (VInt huge) (<[0%nat := init CSVAdapter "CSV_00"]> ∅) =
  Some (Raises int_limit_error, <[0%nat := init CSVAdapter "CSV_00"]> ∅,
        ["Adapter: Processing CSV data through same pipeline..."]) /\
  count_at (<[0%nat := init CSVAdapter "CSV_00"]> ∅) 0%nat = Some 0.
Proof.
  split_and!; [reflexivity| |reflexivity].
  apply (process_overflow (<[0%nat := init CSVAdapter "CSV_00"]> ∅) 0%nat
           (init CSVAdapter "CSV_00") (VInt huge)); [reflexivity|].
  exact huge_overflows.
Qed.

(** C10, amended: an adapter without stages: [run_stages] returns its
    input as it is and raises nothing; when [str] converts the input
    (any value but an integer of more than 4300 digits), [process]
    completes, adds 1 to the counter and returns the input under the
    adapter's label; on such an integer it raises the conversion's
    [ValueError] and the counter is unchanged. *)
Theorem empty_pipeline_passes_through h self p x :
  h !! self = Some p ->
  stages p = [] ->
  run_stages self x h = Some (Returns x, h, []) /\
  (str_fits x = true ->
   process self x h =
   Some (Returns (VStr (match adapter p with
                        | JSONAdapter => "Processed JSON data: "
                        | CSVAdapter => "Processed CSV data: "
                        | StreamAdapter => "Processed STREAM data: "
                        end +:+ py_str x)),
         <[self := bump p]> h, entry_lines (adapter p) x) /\
   count_at (<[self := bump p]> h) self = Some (processed_count p + 1)) /\
  (str_fits x = false ->
   process self x h =
   Some (Raises int_limit_error, h, [banner (adapter p)]) /\
   count_at h self = Some (processed_count p)).
Proof.
  intros L S.
  assert (for_stages (stages p) x h = Some (Returns x, h, [])) as F.
  { by rewrite S. }
  split_and!.
  - by rewrite (run_stages_unfold _ _ _ _ L).
  - intros N. split.
    + rewrite (process_returns _ _ _ _ _ _ L N F N), app_nil_r.
      reflexivity.
    + unfold count_at. by rewrite lookup_insert_eq.
  - intros N. split.
    + by apply process_overflow.
    + unfold count_at. by rewrite L.
Qed.

Lemma empty_pipeline_passes_through_witness :
  run_stages 0%nat VNone (<[0%nat := init CSVAdapter "CSV_00"]> ∅) =
  Some (Returns VNone, <[0%nat := init CSVAdapter "CSV_00"]> ∅, []) /\
  process 0%nat VNone (<[0%nat := init CSVAdapter "CSV_00"]> ∅) =
  Some (Returns (VStr "Processed CSV data: None"),
        <[0%nat := bump (init CSVAdapter "CSV_00")]>
          (<[0%nat := init CSVAdapter "CSV_00"]> ∅),
        entry_lines CSVAdapter VNone) /\
  count_at (<[0%nat := bump (init CSVAdapter "CSV_00")]>
              (<[0%nat := init CSVAdapter "CSV_00"]> ∅)) 0%nat =
  Some (0 + 1).
Proof.
  destruct (empty_pipeline_passes_through
              (<[0%nat := init CSVAdapter "CSV_00"]> ∅) 0%nat
              (init CSVAdapter "CSV_00") VNone) as (R & P & _);
    [reflexivity..|].
  split; [exact R | exact (P eq_refl)].
Defined.

(** ** The Transform stage *)

(** The claim C9 read with the message it quotes, ["invalid data format"],
    fails on the sentinel: the message raised starts with a capital. *)
Lemma transform_stage_message_counterexample :
  snd (stage_process TransformStage (VStr "FAIL")) <>
  Raises (MkExc ValueError "invalid data format").
Proof. cbn. discriminate. Qed.

(** C9, amended: the Transform stage raises a [ValueError] with the
    message ["Invalid data format"] when and only when its input is the
    string ["FAIL"], and returns every other input unchanged. *)
Theorem transform_stage_fails_on_sentinel x :
  (snd (stage_process TransformStage x) =
   Raises (MkExc ValueError "Invalid data format") <-> x = VStr "FAIL") /\
  ((exists e, snd (stage_process TransformStage x) = Raises e) <->
   x = VStr "FAIL") /\
  (x <> VStr "FAIL" -> snd (stage_process TransformStage x) = Returns x).
Proof.
  cbn [stage_process TransformStage snd].
  destruct (py_eq_str x "FAIL") eqn:E.
  - apply py_eq_str_true in E. split_and!; [done| |done].
    split; [done|]. intros _. by eexists.
  - assert (x <> VStr "FAIL") as N.
    { intros ->. discriminate. }
    split_and!; [split; [discriminate|done]| |done].
    split; [intros (e & ?); discriminate | done].
Qed.

Lemma transform_stage_fails_on_sentinel_witness :
  snd (stage_process TransformStage (VStr "TEST DATA")) =
  Returns (VStr "TEST DATA").
Proof.
  apply (proj2 (proj2 (transform_stage_fails_on_sentinel (VStr "TEST DATA")))).
  discriminate.
Defined.



(** ** Building a pipeline *)

Lemma add_stage_unfold h self p stage :
  h !! self = Some p ->
  add_stage self stage h =
  Some (Returns tt, <[self := with_stage p stage]> h, []).
Proof. intros L. unfold add_stage, bind, deref, store. by rewrite L. Qed.

(** X1: a stage added with [add_stage] is run last: the run of the
    extended pipeline is the run of the old one followed by the new stage
    on what it returned; no counter and no other object changes. *)
Theorem add_stage_extends_run h self p stage x :
  h !! self = Some p ->
  exists h',
    add_stage self stage h = Some (Returns tt, h', []) /\
    run_stages self x h' =
    bind (for_stages (stages p) x) (fun v => for_stages [stage] v) h' /\
    count_at h' self = count_at h self /\
    (forall r, r <> self -> h' !! r = h !! r).
Proof.
  intros L. exists (<[self := with_stage p stage]> h). split_and!.
  - by apply add_stage_unfold.
  - rewrite (run_stages_unfold _ _ (with_stage p stage) _)
      by apply lookup_insert_eq.
    cbn [with_stage stages]. apply for_stages_app.
  - unfold count_at. by rewrite lookup_insert_eq, L.
  - intros r N. by rewrite lookup_insert_ne.
Qed.

Lemma add_stage_extends_run_witness :
  exists h',
    add_stage 0%nat (raising_stage (MkExc TypeError "not a table"))
      demo_heap = Some (Returns tt, h', []) /\
    run_stages 0%nat (VInt 7) h' =
    Some (Returns (VStr "[RECOVERED]7"), h',
          demo_lines ++ ["Stage Faulty: giving up"] ++
          recovery_lines (MkExc TypeError "not a table")).
Proof.
  destruct (add_stage_extends_run demo_heap 0%nat json_demo
              (raising_stage (MkExc TypeError "not a table")) (VInt 7)
              eq_refl) as (h' & A & R & _).
  exists h'. split; [exact A|]. rewrite R. reflexivity.
Defined.

Lemma calls_add_stage sts :
  forall h self p,
    h !! self = Some p ->
    calls (map (CallAddStage self) sts) h =
    Some (<[self := MkPipeline (adapter p) (pipeline_id p)
                      (stages p ++ sts) (processed_count p)]> h).
Proof.
  induction sts as [|stage rest IH]; intros h self p L.
  - cbn. f_equal. rewrite app_nil_r. destruct p. symmetry.
    by apply insert_id.
  - cbn [map calls call]. unfold heap_after.
    rewrite (add_stage_unfold _ _ _ _ L).
    rewrite (IH _ self (with_stage p stage)) by apply lookup_insert_eq.
    cbn [with_stage adapter pipeline_id stages processed_count].
    by rewrite insert_insert_eq, <- app_assoc.
Qed.

(** X2: stages are kept in insertion order: after [add_stage] has been
    called for each stage of a list, in order, the pipeline's stages are
    its former stages followed by that list; identifier, class and counter
    are as before. *)
Theorem add_stage_keeps_order h self p sts :
  h !! self = Some p ->
  exists h',
    calls (map (CallAddStage self) sts) h = Some h' /\
    h' !! self = Some (MkPipeline (adapter p) (pipeline_id p)
                         (stages p ++ sts) (processed_count p)) /\
    (forall r, r <> self -> h' !! r = h !! r).
Proof.
  intros L. eexists. split; [by apply calls_add_stage|]. split.
  - apply lookup_insert_eq.
  - intros r N. by rewrite lookup_insert_ne.
Qed.

Lemma add_stage_keeps_order_witness :
  exists h',
    calls (map (CallAddStage 0%nat) [InputStage; TransformStage; OutputStage])
      (<[0%nat := init JSONAdapter "JSON_01"]> ∅) = Some h' /\
    h' !! 0%nat = Some json_demo.
Proof.
  destruct (add_stage_keeps_order (<[0%nat := init JSONAdapter "JSON_01"]> ∅)
              0%nat (init JSONAdapter "JSON_01")
              [InputStage; TransformStage; OutputStage])
    as (h' & C & L & _); [reflexivity|].
  exists h'. split; [exact C | exact L].
Defined.

(** ** Nested recovery *)

Lemma for_stages_always_recovers sts :
  always_recovers sts ->
  forall x h,
    str_fits x = true ->
    exists o,
      for_stages sts x h =
      Some (Returns (Nat.iter (length sts) recovered x), h, o).
Proof.
  induction sts as [|stage rest IH]; intros A x h N.
  - by exists [].
  - assert (stage ∈ stage :: rest) as I by by left.
    destruct (A stage x I) as (o & e & E & R).
    destruct (IH (fun s v I => A s v (list_elem_of_further _ _ _ I))
                (recovered x) h eq_refl) as (o' & F).
    exists ((o ++ recovery_lines e) ++ o').
    rewrite (for_stages_cons_recovers _ _ _ _ _ _ E R N).
    rewrite (bind_emit _ _ _ _ _ _ F). cbn [length].
    by rewrite Nat.iter_succ_r.
Qed.

(** X3: failures nest the marker: when every stage of a pipeline raises
    a [TypeError] or [ValueError] on whatever it is given and [str]
    converts the input (any value but an integer of more than 4300
    digits), [run_stages] completes and returns the input wrapped once
    per stage. *)
Theorem recovery_nests h self p x :
  h !! self = Some p ->
  always_recovers (stages p) ->
  str_fits x = true ->
  exists o,
    run_stages self x h =
    Some (Returns (Nat.iter (length (stages p)) recovered x), h, o).
Proof.
  intros L A N. rewrite (run_stages_unfold _ _ _ _ L).
  by apply for_stages_always_recovers.
Qed.

Lemma recovery_nests_witness :
  exists o,
    run_stages 0%nat (VInt 5)
      (<[0%nat := MkPipeline CSVAdapter "CSV_03"
                    [raising_stage (MkExc TypeError "a");
                     raising_stage (MkExc ValueError "b")] 0]> ∅) =
    Some (Returns (VStr "[RECOVERED][RECOVERED]5"),
          <[0%nat := MkPipeline CSVAdapter "CSV_03"
                       [raising_stage (MkExc TypeError "a");
                        raising_stage (MkExc ValueError "b")] 0]> ∅, o).
Proof.
  apply (recovery_nests _ 0%nat
           (MkPipeline CSVAdapter "CSV_03"
              [raising_stage (MkExc TypeError "a");
               raising_stage (MkExc ValueError "b")] 0) (VInt 5));
    [reflexivity| |reflexivity].
  intros stage v I.
  apply list_elem_of_In in I. destruct I as [<-|[<-|[]]]; by eexists _, _.
Defined.

(** ** More on chaining *)

(** X4: [execute_chain] guards nothing: when the adapters before the
    [k]-th have completed and the [k]-th raises, whatever the class of
    the exception, the chain raises it there and the adapters after it
    are not run.  The heap is the one that adapter left: the one the
    completed adapters left, each counted once per completed call, when
    the exception is of a class [run_stages] does not catch; no counter
    is lower in any case. *)
Theorem execute_chain_halts_on_raise m pre k post x h v h1 o1 e h2 o2 :
  pipelines m = pre ++ k :: post ->
  for_chain pre 1 x h = Some (Returns v, h1, o1) ->
  process k v h1 = Some (Raises e, h2, o2) ->
  execute_chain m x h =
  Some (Raises e, h2, o1 ++ pass_line (1 + Z.of_nat (length pre)) :: o2) /\
  (recoverable e = false -> h2 = h1) /\
  counters_le h1 h2 /\
  (forall r, count_at h1 r =
             (fun c => c + Z.of_nat (occurrences r pre)) <$> count_at h r).
Proof.
  intros E F P. split_and!.
  - unfold execute_chain. rewrite E, for_chain_app. unfold bind. rewrite F.
    by rewrite (for_chain_cons_raises _ _ _ _ _ _ _ _ P).
  - intros R. exact (process_fatal_heap _ _ _ _ _ _ P R).
  - exact (process_counters_le _ _ _ _ _ _ P).
  - intros r. apply count_at_iter. eapply for_chain_heap, F.
Qed.

Lemma execute_chain_halts_on_raise_witness :
  execute_chain demo_manager (VStr "a,b") broken_heap =
  Some (Raises (MkExc KeyError "missing column"),
        <[0%nat := bump json_demo]> broken_heap,
        (pass_line 1 :: entry_lines JSONAdapter (VStr "a,b") ++ demo_lines) ++
        pass_line (1 + Z.of_nat (length [0%nat])) ::
        (entry_lines CSVAdapter (VStr "Processed JSON data: a,b") ++
         ["Stage Input: Validating and parsing data";
          "Stage Faulty: giving up"])).
Proof.
  apply (proj1 (execute_chain_halts_on_raise demo_manager [0%nat] 1%nat
                  [2%nat] (VStr "a,b") broken_heap
                  (VStr "Processed JSON data: a,b")
                  (<[0%nat := bump json_demo]> broken_heap)
                  (pass_line 1 ::
                     entry_lines JSONAdapter (VStr "a,b") ++ demo_lines)
                  (MkExc KeyError "missing column")
                  (<[0%nat := bump json_demo]> broken_heap)
                  (entry_lines CSVAdapter (VStr "Processed JSON data: a,b") ++
                   ["Stage Input: Validating and parsing data";
                    "Stage Faulty: giving up"])
                  eq_refl eq_refl eq_refl)).
Defined.

(** X5: a chain that completes has counted every adapter once per
    occurrence in the manager's list, and touched no other object. *)
Theorem execute_chain_counts m x h v h' o :
  execute_chain m x h = Some (Returns v, h', o) ->
  forall r,
    count_at h' r =
    (fun c => c + Z.of_nat (occurrences r (pipelines m))) <$> count_at h r /\
    (r ∉ pipelines m -> h' !! r = h !! r).
Proof.
  intros F r. pose proof (for_chain_heap _ _ _ _ _ _ _ F r) as H. split.
  - by apply count_at_iter.
  - intros N. rewrite H. unfold occurrences.
    rewrite (proj1 (count_occ_not_In Nat.eq_dec (pipelines m) r)).
    + by destruct (h !! r).
    + intros I. by apply N, list_elem_of_In.
Qed.

Lemma execute_chain_counts_witness :
  exists v h' o,
    execute_chain (MkManager [0%nat; 0%nat; 2%nat]) (VStr "FAIL") demo_heap =
    Some (Returns v, h', o) /\
    count_at h' 0%nat = Some 2 /\
    count_at h' 1%nat = Some 0 /\
    count_at h' 2%nat = Some 1.
Proof.
  destruct (execute_chain (MkManager [0%nat; 0%nat; 2%nat]) (VStr "FAIL")
              demo_heap) as [[[[v|e] h'] o]|] eqn:F;
    [|vm_compute in F; discriminate..].
  exists v, h', o. split; [reflexivity|].
  pose proof (execute_chain_counts _ _ _ _ _ _ F) as C.
  rewrite (proj1 (C 0%nat)), (proj1 (C 1%nat)), (proj1 (C 2%nat)).
  by vm_compute.
Defined.

(** ** What leaves the adapters and the manager *)

Lemma process_raises self x h e h' o :
  process self x h = Some (Raises e, h', o) ->
  recoverable e = false \/ e = int_limit_error.
Proof.
  intros P. destruct (h !! self) as [p|] eqn:L.
  2: { by rewrite (process_dangling _ _ _ L) in P. }
  destruct (for_stages_pure (stages p) x) as (r & o1 & F).
  rewrite (process_unfold _ _ _ _ _ _ L (F h)) in P.
  destruct (str_fits x); [|right; congruence].
  destruct r as [v|e1].
  - destruct (str_fits v); [discriminate | right; congruence].
  - injection P as <- <- <-.
    destruct (for_stages_raises _ _ _ _ _ _ (F h)) as [[R _]|[-> _]]; auto.
Qed.

Lemma for_all_raises pls :
  forall x h e h' o,
    for_all pls x h = Some (Raises e, h', o) -> recoverable e = false.
Proof.
  induction pls as [|pipeline rest IH]; intros x h e h' o.
  - cbn. unfold ret. congruence.
  - intros F. destruct (process pipeline x h) as [[[[v|e1] h1] o1]|] eqn:P.
    + rewrite (for_all_cons_returns _ _ _ _ _ _ _ P) in F.
      unfold bind, emit in F.
      destruct (for_all rest x h1) as [[[r2 h2] o2]|] eqn:G; [|congruence].
      injection F as -> -> <-. eapply IH, G.
    + destruct (recoverable e1) eqn:R.
      * rewrite (for_all_cons_caught _ _ _ _ _ _ _ P R) in F.
        unfold bind, emit in F.
        destruct (for_all rest x h1) as [[[r2 h2] o2]|] eqn:G; [|congruence].
        injection F as -> -> <-. eapply IH, G.
      * rewrite (for_all_cons_fatal _ _ _ _ _ _ _ P R) in F. congruence.
    + cbn [for_all] in F. unfold bind, try_except in F. by rewrite P in F.
Qed.

Lemma for_chain_raises pls :
  forall i x h e h' o,
    for_chain pls i x h = Some (Raises e, h', o) ->
    recoverable e = false \/ e = int_limit_error.
Proof.
  induction pls as [|pipeline rest IH]; intros i x h e h' o.
  - cbn. unfold ret. congruence.
  - intros F. destruct (process pipeline x h) as [[[[v|e1] h1] o1]|] eqn:P.
    + rewrite (for_chain_cons_returns _ _ _ _ _ _ _ _ P) in F.
      unfold bind, emit in F.
      destruct (for_chain rest (i + 1) v h1) as [[[r2 h2] o2]|] eqn:G;
        [|congruence].
      injection F as -> -> <-. eapply IH, G.
    + rewrite (for_chain_cons_raises _ _ _ _ _ _ _ _ P) in F.
      injection F as <- <- <-. eapply process_raises, P.
    + cbn [for_chain] in F. unfold bind, print in F. by rewrite P in F.
Qed.

(** X6: an exception of class [TypeError] or [ValueError] that comes
    out of [process] or [execute_chain] is the [ValueError], class and
    message, that the conversion of an integer of more than 4300 digits
    raises: the other exceptions of these classes are caught in
    [run_stages].  [execute_all] catches that one too: nothing of these
    classes ever leaves it. *)
Theorem only_conversion_errors_escape e h' o :
  (forall self x h,
      process self x h = Some (Raises e, h', o) ->
      recoverable e = false \/ e = int_limit_error) /\
  (forall m x h,
      execute_chain m x h = Some (Raises e, h', o) ->
      recoverable e = false \/ e = int_limit_error) /\
  (forall m x h,
      execute_all m x h = Some (Raises e, h', o) -> recoverable e = false).
Proof.
  split_and!.
  - intros self x h. apply process_raises.
  - intros m x h. apply for_chain_raises.
  - intros m x h. apply for_all_raises.
Qed.

Lemma only_conversion_errors_escape_witness :
  recoverable (MkExc KeyError "missing column") = false.
Proof.
  eapply (proj2 (proj2 (only_conversion_errors_escape _ _ _))
            demo_manager (VStr "a,b") broken_heap).
  vm_compute. reflexivity.
Defined.

(** X7: [run_stages] on its own changes nothing: on a live pipeline it
    always comes back, returning or raising, with the heap it started
    from, so only [process] ever counts a run. *)
Theorem run_stages_leaves_heap h self p x :
  h !! self = Some p ->
  exists r o,
    run_stages self x h = Some (r, h, o) /\
    forall r' h' o',
      run_stages self x h = Some (r', h', o') -> h' = h.
Proof.
  intros L. destruct (for_stages_pure (stages p) x) as (r & o & F).
  exists r, o. rewrite (run_stages_unfold _ _ _ _ L), F.
  split; [done|]. congruence.
Qed.

Lemma run_stages_leaves_heap_witness :
  exists r o, run_stages 1%nat (VStr "a,b") broken_heap =
              Some (r, broken_heap, o).
Proof.
  destruct (run_stages_leaves_heap broken_heap 1%nat csv_broken (VStr "a,b")
              eq_refl) as (r & o & R & _).
  by exists r, o.
Defined.

(** ** A chain of demonstration pipelines *)

Lemma wrap_not_sentinel a v : demo_result (wrap a v) = wrap a v.
Proof. by destruct a. Qed.

Lemma process_demo h r p x :
  h !! r = Some p -> stages p = demo_stages -> str_fits x = true ->
  exists o,
    process r x h =
    Some (Returns (wrap (adapter p) (demo_result x)), <[r := bump p]> h, o).
Proof.
  intros L S N. unfold demo_result. destruct (py_eq_str x "FAIL") eqn:E.
  - apply py_eq_str_true in E as ->. eexists.
    eapply (process_returns h r p (VStr "FAIL") (recovered (VStr "FAIL")));
      [exact L | reflexivity | | reflexivity].
    rewrite S. reflexivity.
  - apply py_eq_str_neq in E. eexists.
    eapply (process_returns h r p x x); [exact L | exact N | | exact N].
    rewrite S. by apply for_stages_demo_unchanged.
Qed.

Lemma adapters_of_bump h r p pls :
  h !! r = Some p -> adapters_of (<[r := bump p]> h) pls = adapters_of h pls.
Proof.
  intros L. unfold adapters_of. induction pls as [|q rest IH]; [done|].
  cbn [omap list_omap]. rewrite IH. destruct (decide (r = q)) as [->|N].
  - by rewrite lookup_insert_eq, L.
  - by rewrite lookup_insert_ne.
Qed.

Lemma all_demo_bump h r p pls :
  h !! r = Some p -> all_demo h pls -> all_demo (<[r := bump p]> h) pls.
Proof.
  intros L A q I. destruct (A q I) as (pq & Lq & S).
  destruct (decide (r = q)) as [->|N].
  - exists (bump p). rewrite lookup_insert_eq. split; [done|].
    assert (p = pq) as -> by congruence. exact S.
  - exists pq. by rewrite lookup_insert_ne.
Qed.

Lemma for_chain_demo pls :
  forall i x h,
    all_demo h pls -> str_fits x = true ->
    exists h' o,
      for_chain pls i x h =
      Some (Returns (fold_left (fun v b => wrap b (demo_result v))
                               (adapters_of h pls) x), h', o).
Proof.
  induction pls as [|r rest IH]; intros i x h A N.
  - by exists h, [].
  - destruct (A r) as (p & L & S); [by left|].
    destruct (process_demo h r p x L S N) as (o1 & P).
    destruct (IH (i + 1) (wrap (adapter p) (demo_result x))
                (<[r := bump p]> h)) as (h' & o2 & F); [|reflexivity|].
    { apply all_demo_bump; [done|]. intros q I. apply A. by right. }
    exists h', (pass_line i :: o1 ++ o2).
    rewrite (for_chain_cons_returns _ _ _ _ _ _ _ _ P).
    rewrite (bind_emit _ _ _ _ _ _ F), (adapters_of_bump _ _ _ _ L).
    unfold adapters_of at 2. cbn [omap list_omap]. rewrite L. reflexivity.
Qed.

Lemma fold_wrap_demo ls :
  forall a y,
    fold_left (fun v b => wrap b (demo_result v)) ls (wrap a y) =
    fold_left (fun v b => wrap b v) ls (wrap a y).
Proof.
  induction ls as [|b ls IH]; intros a y; [done|].
  cbn [fold_left]. rewrite wrap_not_sentinel. apply IH.
Qed.

(** X8: in a chain of pipelines with the stages Input, Transform,
    Output only the first adapter can meet the sentinel: when [str]
    converts the input (any value but an integer of more than 4300
    digits) the chain completes, and its result is the labels of the
    adapters, last one outermost, around the first adapter's stage
    result, which is the input, or its recovery when the input is
    ["FAIL"]. *)
Theorem chain_recovers_first_only m x h :
  all_demo h (pipelines m) ->
  str_fits x = true ->
  exists h' o,
    execute_chain m x h =
    Some (Returns match adapters_of h (pipelines m) with
                  | [] => x
                  | a :: ls =>
                      fold_left (fun v b => wrap b v) ls
                                (wrap a (demo_result x))
                  end, h', o).
Proof.
  intros A N. destruct (for_chain_demo _ 1 x h A N) as (h' & o & F).
  exists h', o. unfold execute_chain. rewrite F.
  destruct (adapters_of h (pipelines m)) as [|a ls]; [done|].
  cbn [fold_left]. by rewrite fold_wrap_demo.
Qed.

Lemma chain_recovers_first_only_witness :
  exists h' o,
    execute_chain demo_manager (VStr "FAIL") demo_heap =
    Some (Returns (VStr ("Processed STREAM data: Processed CSV data: " +:+
                         "Processed JSON data: [RECOVERED]FAIL")), h', o).
Proof.
  apply (chain_recovers_first_only demo_manager (VStr "FAIL") demo_heap);
    [|reflexivity].
  intros r I. apply list_elem_of_In in I.
  destruct I as [<-|[<-|[<-|[]]]]; by eexists.
Defined.

(** ** Calling [process] again, and the order of a fan-out *)

(** X9: [process] can be repeated: a second call with the same data
    returns the same value and prints the same lines as the first, and
    the counter then stands two above where it started. *)
Theorem process_repeatable self x h v h1 o :
  process self x h = Some (Returns v, h1, o) ->
  exists h2,
    process self x h1 = Some (Returns v, h2, o) /\
    count_at h2 self = (fun c => c + 2) <$> count_at h self.
Proof.
  intros P. destruct (process_returns_heap _ _ _ _ _ _ P) as (p & L & ->).
  destruct (process_same_code h (<[self := bump p]> h) self x v
              (<[self := bump p]> h) o)
    as (q & Lq & P2); [|done|].
  { apply same_code_bump; [apply same_code_refl | done]. }
  rewrite lookup_insert_eq in Lq. injection Lq as <-.
  eexists. split; [exact P2|].
  unfold count_at. rewrite lookup_insert_eq, L. cbn. f_equal. lia.
Qed.

Lemma process_repeatable_witness :
  exists h2,
    process 0%nat (VStr "FAIL") (<[0%nat := bump json_demo]> demo_heap) =
    Some (Returns (VStr "Processed JSON data: [RECOVERED]FAIL"), h2,
          entry_lines JSONAdapter (VStr "FAIL") ++
          ["Stage Input: Validating and parsing data";
           "Stage Transform: Enriching data"] ++
          recovery_lines (MkExc ValueError "Invalid data format") ++
          ["Stage Output: Formatting result"]) /\
    count_at h2 0%nat = (fun c => c + 2) <$> count_at demo_heap 0%nat.
Proof.
  apply (process_repeatable 0%nat (VStr "FAIL") demo_heap). reflexivity.
Defined.

Lemma Permutation_concat {A} (l1 l2 : list (list A)) :
  l1 ≡ₚ l2 -> concat l1 ≡ₚ concat l2.
Proof.
  induction 1 as [|x l l' _ IH|x y l|l l' l'' _ IH1 _ IH2]; cbn.
  - done.
  - by rewrite IH.
  - by rewrite !app_assoc, (Permutation_app_comm y x).
  - by rewrite IH1.
Qed.

(** What an adapter's [process] returns and prints on [x] from [h]. *)
Lemma completes_results h x :
  exists f : ref -> Value * list string,
    forall pls,
      Forall (fun r => exists v h1 o,
                  process r x h = Some (Returns v, h1, o)) pls ->
      Forall2 (fun r res =>
                 exists h1, process r x h = Some (Returns res.1, h1, res.2))
              pls (map f pls).
Proof.
  exists (fun r => match process r x h with
                   | Some (Returns v, _, o) => (v, o)
                   | _ => (VNone, [])
                   end).
  intros pls F.
  induction F as [|r rest (v & h1 & o & P) _ IH]; cbn [map].
  - constructor.
  - constructor; [|exact IH]. rewrite P. by exists h1.
Qed.

(** X10: the adapters of a fan-out do not depend on one another: when
    each of them completes on [x], running them in any other order
    completes too, leaves the same heap, and prints the same lines up to
    their order. *)
Theorem execute_all_order_irrelevant m1 m2 x h :
  pipelines m1 ≡ₚ pipelines m2 ->
  Forall (fun r => exists v h1 o, process r x h = Some (Returns v, h1, o))
         (pipelines m1) ->
  exists h' o1 o2,
    execute_all m1 x h = Some (Returns tt, h', o1) /\
    execute_all m2 x h = Some (Returns tt, h', o2) /\
    o1 ≡ₚ o2.
Proof.
  intros Pm F1.
  assert (Forall (fun r => exists v h1 o,
                      process r x h = Some (Returns v, h1, o))
                 (pipelines m2)) as F2.
  { by rewrite <- Pm. }
  destruct (completes_results h x) as (f & R).
  pose proof (R _ F1) as R1. pose proof (R _ F2) as R2.
  destruct (for_all_fans_out h x _ _ h (same_code_refl h) R1)
    as (h1 & G1 & H1).
  destruct (for_all_fans_out h x _ _ h (same_code_refl h) R2)
    as (h2 & G2 & H2).
  assert (h2 = h1) as ->.
  { apply map_eq. intros r. rewrite (H1 r), (H2 r).
    unfold occurrences.
    by rewrite (proj1 (Permutation_count_occ Nat.eq_dec _ _) Pm r). }
  eexists h1, _, _. split_and!; [exact G1 | exact G2 |].
  unfold fan_out_lines. apply Permutation_concat.
  by rewrite !map_map, Pm.
Qed.

Lemma execute_all_order_irrelevant_witness :
  exists h' o1 o2,
    execute_all demo_manager (VStr "FAIL") demo_heap =
    Some (Returns tt, h', o1) /\
    execute_all (MkManager [2%nat; 0%nat; 1%nat]) (VStr "FAIL") demo_heap =
    Some (Returns tt, h', o2) /\
    o1 ≡ₚ o2.
Proof.
  apply (execute_all_order_irrelevant demo_manager
           (MkManager [2%nat; 0%nat; 1%nat]) (VStr "FAIL") demo_heap).
  - cbn [pipelines demo_manager].
    symmetry. apply (Permutation_cons_append [0%nat; 1%nat] 2%nat).
  - repeat (apply List.Forall_cons; [eexists _, _, _; reflexivity|]).
    apply List.Forall_nil.
Defined.

(** ** The program *)

(** X11: [main] runs to its end without an exception.  Its two
    statistics reports show every counter at 1 after the first fan-out
    and at 2 after the chain; the chain prints the three labels nested
    around ["TEST DATA"]; the closing fan-out on ["FAIL"] recovers in
    every pipeline and leaves every counter at 3. *)
Theorem main_transcript :
  match main ∅ with
  | Some (Returns _, h, out) =>
      statistics_lines out =
      ["Pipeline JSON_01: 1"; "Pipeline CSV_01: 1"; "Pipeline STREAM_01: 1";
       "Pipeline JSON_01: 2"; "Pipeline CSV_01: 2"; "Pipeline STREAM_01: 2"] /\
      filter (fun line => String.prefix "Chain result: " line = true) out =
      ["Chain result: Processed STREAM data: Processed CSV data: " +:+
       "Processed JSON data: TEST DATA"] /\
      filter (fun line => String.prefix "Nexus Manager result: " line = true)
             out =
      [result_line (VStr "Processed JSON data: TEST DATA");
       result_line (VStr "Processed CSV data: TEST DATA");
       result_line (VStr "Processed STREAM data: TEST DATA");
       result_line (VStr "Processed JSON data: [RECOVERED]FAIL");
       result_line (VStr "Processed CSV data: [RECOVERED]FAIL");
       result_line (VStr "Processed STREAM data: [RECOVERED]FAIL")] /\
      length out = 85%nat /\
      map (count_at h) [0%nat; 1%nat; 2%nat] = [Some 3; Some 3; Some 3]
  | _ => False
  end.
Proof. vm_compute. by repeat split. Qed.

(** * Properties of the data streams *)

Lemma comprehension_Some cond batch kept :
  Streams.comprehension cond batch = Some kept ->
  Forall (fun data => is_Some (cond data)) batch /\
  kept = List.filter (fun data => default false (cond data)) batch.
Proof.
  revert kept. induction batch as [|data rest IH]; intros kept; cbn.
  - intros [= <-]. by split.
  - destruct (cond data) as [keep|] eqn:C; [|done].
    destruct (Streams.comprehension cond rest) as [l|]; [|done].
    intros [= <-]. destruct (IH l eq_refl) as (F & ->).
    split; [constructor; [by rewrite C | done]|].
    cbn. by destruct keep.
Qed.

Lemma comprehension_defined cond batch :
  Forall (fun data => is_Some (cond data)) batch ->
  Streams.comprehension cond batch =
  Some (List.filter (fun data => default false (cond data)) batch).
Proof.
  induction 1 as [|data rest [keep C] _ IH]; cbn; [done|].
  rewrite C, IH. by destruct keep.
Qed.

Lemma comprehension_undefined cond batch :
  Exists (fun data => cond data = None) batch ->
  Streams.comprehension cond batch = None.
Proof.
  induction 1 as [data rest C|data rest _ IH]; cbn.
  - by rewrite C.
  - rewrite IH. by destruct (cond data).
Qed.

Lemma filter_sublist {A} (f : A -> bool) (l : list A) :
  sublist (List.filter f l) l.
Proof.
  induction l as [|a l IH]; cbn; [constructor|].
  destruct (f a); by constructor.
Qed.

Lemma filter_idem {A} (f : A -> bool) (l : list A) :
  List.filter f (List.filter f l) = List.filter f l.
Proof.
  induction l as [|a l IH]; cbn; [done|].
  destruct (f a) eqn:E; cbn; [|done]. by rewrite E, IH.
Qed.

Lemma filter_split {A} (f g : A -> bool) (l : list A) :
  (forall a, a ∈ l -> g a = negb (f a)) ->
  List.filter f l ++ List.filter g l ≡ₚ l.
Proof.
  induction l as [|a l IH]; intros G; cbn; [done|].
  rewrite (G a) by by left.
  assert (List.filter f l ++ List.filter g l ≡ₚ l) as P.
  { apply IH. intros b I. apply G. by right. }
  destruct (f a); cbn.
  - by rewrite P.
  - by rewrite <- Permutation_middle, P.
Qed.

Lemma guarded_sublist cond batch : sublist (Streams.guarded cond batch) batch.
Proof.
  unfold Streams.guarded.
  destruct (Streams.comprehension cond batch) as [kept|] eqn:C; [|done].
  apply comprehension_Some in C as (_ & ->). apply filter_sublist.
Qed.

Lemma guarded_idem cond batch :
  Streams.guarded cond (Streams.guarded cond batch) =
  Streams.guarded cond batch.
Proof.
  unfold Streams.guarded at 2 3.
  destruct (Streams.comprehension cond batch) as [kept|] eqn:C.
  - apply comprehension_Some in C as (F & ->). unfold Streams.guarded.
    rewrite comprehension_defined, filter_idem; [done|].
    rewrite Forall_forall in F. apply Forall_forall. intros d I.
    apply F. apply list_elem_of_In, filter_In in I as [I _].
    by apply list_elem_of_In.
  - unfold Streams.guarded. by rewrite C.
Qed.

Lemma guarded_undefined cond batch :
  Exists (fun data => cond data = None) batch ->
  Streams.guarded cond batch = batch.
Proof.
  intros E. unfold Streams.guarded. by rewrite comprehension_undefined.
Qed.

(** The cases of [filter_data]: the batch itself, or a guarded
    comprehension. *)
Lemma filter_data_cases self batch criteria :
  Streams.filter_data self batch criteria = batch \/
  exists cond,
    Streams.filter_data self batch criteria = Streams.guarded cond batch /\
    forall b, Streams.filter_data self b criteria = Streams.guarded cond b.
Proof.
  unfold Streams.filter_data, Streams.SensorStream_filter_data,
    Streams.TransactionStream_filter_data, Streams.EventStream_filter_data.
  destruct (Streams.class self), criteria as [c|];
    repeat case_bool_decide;
    repeat match goal with
           | |- context [String.eqb ?a ?b] => destruct (String.eqb a b)
           end;
    (by left) || (right; eexists; split; [reflexivity | done]).
Qed.

(** X12: whatever the class, the criteria and the batch, [filter_data]
    returns items of the batch in their order, each at most once per
    occurrence: nothing is added, duplicated or moved. *)
Theorem filter_data_sublist self batch criteria :
  sublist (Streams.filter_data self batch criteria) batch /\
  (length (Streams.filter_data self batch criteria) <= length batch)%nat.
Proof.
  assert (sublist (Streams.filter_data self batch criteria) batch) as S.
  { destruct (filter_data_cases self batch criteria)
      as [->|(cond & -> & _)]; [done | apply guarded_sublist]. }
  split; [done | by apply sublist_length].
Qed.

(** X13: filtering is idempotent: filtering again what [filter_data]
    returned, with the same criteria, changes nothing. *)
Theorem filter_data_idempotent self batch criteria :
  Streams.filter_data self (Streams.filter_data self batch criteria) criteria
  = Streams.filter_data self batch criteria.
Proof.
  destruct (filter_data_cases self batch criteria)
    as [E|(cond & E & G)].
  - by rewrite !E.
  - by rewrite E, G, guarded_idem.
Qed.

Lemma guarded_defined cond batch :
  Forall (fun data => is_Some (cond data)) batch ->
  Streams.guarded cond batch =
  List.filter (fun data => default false (cond data)) batch.
Proof.
  intros F. unfold Streams.guarded. by rewrite comprehension_defined.
Qed.

Lemma guarded_numbers test batch :
  Forall Streams.is_number batch ->
  Streams.guarded (fun data => test <$> Streams.as_number data) batch =
  List.filter (Streams.number_is test) batch.
Proof.
  intros F. rewrite guarded_defined.
  - apply filter_ext_in. intros d I. unfold Streams.number_is.
    by destruct (Streams.as_number d).
  - eapply Forall_impl; [exact F|]. intros d [z ->]. by eexists.
Qed.

(** X14: on a batch of integers and booleans, a sensor stream keeps
    under ["high"] exactly the items above 30 and under ["standard"]
    exactly those at most 30, and a transaction stream keeps under
    ["positive"] exactly the items at least 0 and under ["negative"]
    exactly those below 0; on a batch of strings an event stream keeps
    under ["error"] exactly the items containing ["error"] and under
    ["info"] exactly the others.  In each class the two results together
    hold every item of the batch once. *)
Theorem filter_data_splits_batch batch :
  (Forall Streams.is_number batch ->
   Streams.SensorStream_filter_data batch (Some "high") =
   List.filter (Streams.number_is (fun z => 30 <? z)) batch /\
   Streams.SensorStream_filter_data batch (Some "standard") =
   List.filter (Streams.number_is (fun z => z <=? 30)) batch /\
   Streams.TransactionStream_filter_data batch (Some "positive") =
   List.filter (Streams.number_is (fun z => 0 <=? z)) batch /\
   Streams.TransactionStream_filter_data batch (Some "negative") =
   List.filter (Streams.number_is (fun z => z <? 0)) batch /\
   Streams.SensorStream_filter_data batch (Some "high") ++
   Streams.SensorStream_filter_data batch (Some "standard") ≡ₚ batch /\
   Streams.TransactionStream_filter_data batch (Some "positive") ++
   Streams.TransactionStream_filter_data batch (Some "negative") ≡ₚ batch) /\
  (Forall Streams.is_string batch ->
   Streams.EventStream_filter_data batch (Some "error") =
   List.filter Streams.is_error_event batch /\
   Streams.EventStream_filter_data batch (Some "info") =
   List.filter (fun data => negb (Streams.is_error_event data)) batch /\
   Streams.EventStream_filter_data batch (Some "error") ++
   Streams.EventStream_filter_data batch (Some "info") ≡ₚ batch).
Proof.
  split.
  - intros F.
    assert (Streams.SensorStream_filter_data batch (Some "high") =
            List.filter (Streams.number_is (fun z => 30 <? z)) batch) as H1.
    { unfold Streams.SensorStream_filter_data.
      rewrite bool_decide_eq_true_2 by done. by apply guarded_numbers. }
    assert (Streams.SensorStream_filter_data batch (Some "standard") =
            List.filter (Streams.number_is (fun z => z <=? 30)) batch) as H2.
    { unfold Streams.SensorStream_filter_data.
      rewrite bool_decide_eq_false_2 by done.
      rewrite bool_decide_eq_true_2 by done. by apply guarded_numbers. }
    assert (Streams.TransactionStream_filter_data batch (Some "positive") =
            List.filter (Streams.number_is (fun z => 0 <=? z)) batch) as H3.
    { cbn. by apply guarded_numbers. }
    assert (Streams.TransactionStream_filter_data batch (Some "negative") =
            List.filter (Streams.number_is (fun z => z <? 0)) batch) as H4.
    { cbn. by apply guarded_numbers. }
    split_and!; [done..| |].
    + rewrite H1, H2. apply filter_split. intros d I.
      rewrite Forall_forall in F. destruct (F d I) as [z E].
      unfold Streams.number_is. rewrite E. lia.
    + rewrite H3, H4. apply filter_split. intros d I.
      rewrite Forall_forall in F. destruct (F d I) as [z E].
      unfold Streams.number_is. rewrite E. lia.
  - intros F.
    assert (Forall (fun data => is_Some (Streams.has_error data)) batch)
      as D1.
    { eapply Forall_impl; [exact F|]. intros [| | |s] []. by eexists. }
    assert (Forall (fun data => is_Some (negb <$> Streams.has_error data))
                   batch) as D2.
    { eapply Forall_impl; [exact F|]. intros [| | |s] []. by eexists. }
    assert (Streams.EventStream_filter_data batch (Some "error") =
            List.filter Streams.is_error_event batch) as H1.
    { cbn. rewrite (guarded_defined _ _ D1). apply filter_ext_in.
      intros d I. rewrite Forall_forall in F.
      specialize (F d (proj2 (list_elem_of_In _ _) I)). by destruct d. }
    assert (Streams.EventStream_filter_data batch (Some "info") =
            List.filter (fun data => negb (Streams.is_error_event data))
                        batch) as H2.
    { cbn. rewrite (guarded_defined _ _ D2). apply filter_ext_in.
      intros d I. rewrite Forall_forall in F.
      specialize (F d (proj2 (list_elem_of_In _ _) I)). by destruct d. }
    split_and!; [done..|].
    rewrite H1, H2. by apply filter_split.
Qed.

Lemma filter_data_splits_batch_witness :
  Streams.SensorStream_filter_data [VInt 22; VInt 50; VInt 30; VBool true]
    (Some "high") = [VInt 50] /\
  Streams.SensorStream_filter_data [VInt 22; VInt 50; VInt 30; VBool true]
    (Some "standard") = [VInt 22; VInt 30; VBool true].
Proof.
  destruct (proj1 (filter_data_splits_batch
                     [VInt 22; VInt 50; VInt 30; VBool true])
              ltac:(repeat constructor; by eexists)) as (H1 & H2 & _).
  split; [exact H1 | exact H2].
Defined.

(** X15: one item of the wrong type switches filtering off: when the
    batch holds something that is not a number, a sensor or transaction
    stream returns the whole batch under every criteria, and so does an
    event stream when the batch holds something that is not a string. *)
Theorem filter_data_ill_typed batch criteria :
  (Exists (fun data => Streams.as_number data = None) batch ->
   Streams.SensorStream_filter_data batch criteria = batch /\
   Streams.TransactionStream_filter_data batch criteria = batch) /\
  (Exists (fun data => ~ Streams.is_string data) batch ->
   Streams.EventStream_filter_data batch criteria = batch).
Proof.
  split.
  - intros E.
    assert (forall f : Z -> bool,
               Streams.guarded (fun data => f <$> Streams.as_number data)
                 batch = batch) as G.
    { intros f. apply guarded_undefined.
      eapply Exists_impl; [exact E|]. by intros d ->. }
    unfold Streams.SensorStream_filter_data,
      Streams.TransactionStream_filter_data.
    split.
    + by repeat case_bool_decide.
    + destruct criteria as [c|]; [|done].
      by destruct (String.eqb c "positive"), (String.eqb c "negative").
  - intros E.
    assert (Exists (fun data => Streams.has_error data = None) batch) as E'.
    { eapply Exists_impl; [exact E|]. by intros [| | |s] N. }
    unfold Streams.EventStream_filter_data.
    destruct criteria as [c|]; [|done].
    destruct (String.eqb c "error"); [by apply guarded_undefined|].
    destruct (String.eqb c "info"); [|done].
    apply guarded_undefined.
    eapply Exists_impl; [exact E'|]. by intros d ->.
Qed.

Lemma filter_data_ill_typed_witness :
  Streams.TransactionStream_filter_data [VInt (-5); VStr "n/a"; VInt 7]
    (Some "negative") = [VInt (-5); VStr "n/a"; VInt 7].
Proof.
  apply (proj1 (filter_data_ill_typed [VInt (-5); VStr "n/a"; VInt 7]
                  (Some "negative"))).
  apply Exists_cons_tl, Exists_cons_hd. reflexivity.
Defined.

(** ** Batches *)

Lemma sum_from_defined batch :
  forall acc,
    Forall Streams.is_number batch ->
    Streams.sum_from acc batch =
    Some (acc + foldr Z.add 0 (omap Streams.as_number batch)).
Proof.
  induction batch as [|d rest IH]; intros acc F; cbn.
  - f_equal. lia.
  - apply Forall_cons in F as [[z E] F]. rewrite E, (IH _ F). cbn.
    f_equal. lia.
Qed.

Lemma sum_from_undefined batch :
  forall acc,
    Exists (fun data => Streams.as_number data = None) batch ->
    Streams.sum_from acc batch = None.
Proof.
  induction batch as [|d rest IH]; intros acc E.
  - by apply Exists_nil in E.
  - cbn. apply Exists_cons in E as [->|E]; [done|].
    destruct (Streams.as_number d); [by apply IH | done].
Qed.

Lemma transaction_state self batch :
  Forall Streams.is_number batch ->
  snd (Streams.TransactionStream_process_batch self batch) =
  Streams.MkStream (Streams.class self) (Streams.stream_id self)
    (Streams.processed_count self + Z.of_nat (length batch)).
Proof.
  intros F. unfold Streams.TransactionStream_process_batch, Streams.py_sum.
  by rewrite (sum_from_defined _ _ F).
Qed.

(** X16: the three ways a transaction batch ends.  When every item is
    an integer or a boolean, the batch length is added to
    [processed_count]; the call then returns the report of the item
    count and the sum if the sum has at most 4300 digits, and otherwise
    raises the [ValueError] of its conversion, the counter already
    increased.  When one item is [None] or a string, the call returns
    the invalid-data message and the stream is exactly as before. *)
Theorem transaction_batch_outcomes self batch :
  (Forall Streams.is_number batch ->
   Streams.TransactionStream_process_batch self batch =
   (if str_fits (VInt (foldr Z.add 0 (omap Streams.as_number batch)))
    then Returns ("[" +:+ Streams.stream_id self +:+ "] " +:+
                  py_str (VInt (Streams.len batch)) +:+
                  " operations processed, net flow: " +:+
                  py_str (VInt (foldr Z.add 0
                                  (omap Streams.as_number batch))))
    else Raises int_limit_error,
    Streams.MkStream (Streams.class self) (Streams.stream_id self)
      (Streams.processed_count self + Z.of_nat (length batch)))) /\
  (Exists (fun data => Streams.as_number data = None) batch ->
   Streams.TransactionStream_process_batch self batch =
   (Returns ("[" +:+ Streams.stream_id self +:+
             "] Invalid transaction data"), self)).
Proof.
  unfold Streams.TransactionStream_process_batch, Streams.py_sum. split.
  - intros F. by rewrite (sum_from_defined _ _ F), Z.add_0_l.
  - intros E. by rewrite (sum_from_undefined _ _ E).
Qed.

Lemma transaction_batch_outcomes_witness :
  Streams.TransactionStream_process_batch
    (Streams.init Streams.TransactionStream "TRANS_001")
    [VInt 100; VInt 150; VInt (-75)] =
  (Returns "[TRANS_001] 3 operations processed, net flow: 175",
   Streams.MkStream Streams.TransactionStream "TRANS_001" 3) /\
  Streams.TransactionStream_process_batch
    (Streams.init Streams.TransactionStream "TRANS_001")
    [VInt 100; VNone] =
  (Returns "[TRANS_001] Invalid transaction data",
   Streams.init Streams.TransactionStream "TRANS_001") /\
  Streams.TransactionStream_process_batch
    (Streams.init Streams.TransactionStream "TRANS_001")
    [VInt huge; VBool true] =
  (Raises int_limit_error,
   Streams.MkStream Streams.TransactionStream "TRANS_001" 2).
Proof.
  split_and!.
  - apply (proj1 (transaction_batch_outcomes
                    (Streams.init Streams.TransactionStream "TRANS_001")
                    [VInt 100; VInt 150; VInt (-75)])).
    repeat constructor; by eexists.
  - apply (proj2 (transaction_batch_outcomes
                    (Streams.init Streams.TransactionStream "TRANS_001")
                    [VInt 100; VNone])).
    apply Exists_cons_tl, Exists_cons_hd. reflexivity.
  - rewrite (proj1 (transaction_batch_outcomes
                      (Streams.init Streams.TransactionStream "TRANS_001")
                      [VInt huge; VBool true]))
      by (repeat constructor; by eexists).
    by vm_compute.
Defined.

(** X17: on a batch of strings the two views of an event stream agree:
    the number of errors [process_batch] reports is the number of items
    [filter_data] keeps under the criteria ["error"]. *)
Theorem event_errors_agree self batch :
  Forall Streams.is_string batch ->
  Streams.EventStream_filter_data batch (Some "error") =
  List.filter Streams.is_error_event batch /\
  fst (Streams.EventStream_process_batch self batch) =
  "[" +:+ Streams.stream_id self +:+ "] " +:+
  py_str (VInt (Streams.len batch)) +:+ " events processed, " +:+
  py_str (VInt (Streams.len
                  (Streams.EventStream_filter_data batch (Some "error")))) +:+
  " error(s)".
Proof.
  intros F.
  assert (Streams.EventStream_filter_data batch (Some "error") =
          List.filter Streams.is_error_event batch) as E.
  { cbn. rewrite guarded_defined.
    - apply filter_ext_in. intros d I. rewrite Forall_forall in F.
      specialize (F d (proj2 (list_elem_of_In _ _) I)). by destruct d.
    - eapply Forall_impl; [exact F|]. intros [| | |s] []. by eexists. }
  split; [done|]. by rewrite E.
Qed.

Lemma event_errors_agree_witness :
  Streams.EventStream_filter_data
    [VStr "login"; VStr "disk error"; VStr "logout"] (Some "error") =
  [VStr "disk error"] /\
  fst (Streams.EventStream_process_batch
         (Streams.init Streams.EventStream "EVENT_001")
         [VStr "login"; VStr "disk error"; VStr "logout"]) =
  "[EVENT_001] 3 events processed, 1 error(s)".
Proof.
  apply (event_errors_agree (Streams.init Streams.EventStream "EVENT_001")
           [VStr "login"; VStr "disk error"; VStr "logout"]).
  by repeat constructor.
Defined.

Lemma filter_data_nil self criteria :
  Streams.filter_data self [] criteria = [].
Proof.
  by destruct (filter_data_cases self [] criteria) as [->|(cond & -> & _)].
Qed.

Lemma filter_data_no_criteria self batch :
  Streams.filter_data self batch None = batch.
Proof. unfold Streams.filter_data. by destruct (Streams.class self). Qed.

Lemma filter_streams_lookup streams data_map criteria_map :
  forall i stream,
    streams !! i = Some stream ->
    Streams.filter_streams streams data_map criteria_map !! i =
    Some (Streams.stream_id stream +:+ ": " +:+
          py_str (VInt (Streams.len
            (Streams.filter_data stream
               (default [] (data_map !! Streams.stream_id stream))
               (criteria_map !! Streams.stream_id stream)))) +:+
          " filtered item(s)").
Proof.
  induction streams as [|s rest IH]; intros i stream; [done|].
  destruct i as [|i]; cbn.
  - by intros [= ->].
  - apply IH.
Qed.

(** X18: [filter_streams] prints one line per stream, in the order of
    the streams; a stream whose identifier is missing from the data map
    is reported with 0 items, and one that has data but no criteria with
    the size of its whole batch. *)
Theorem filter_streams_lines streams data_map criteria_map :
  length (Streams.filter_streams streams data_map criteria_map) =
  length streams /\
  forall i stream,
    streams !! i = Some stream ->
    (data_map !! Streams.stream_id stream = None ->
     Streams.filter_streams streams data_map criteria_map !! i =
     Some (Streams.stream_id stream +:+ ": 0 filtered item(s)")) /\
    (forall batch,
        data_map !! Streams.stream_id stream = Some batch ->
        criteria_map !! Streams.stream_id stream = None ->
        Streams.filter_streams streams data_map criteria_map !! i =
        Some (Streams.stream_id stream +:+ ": " +:+
              py_str (VInt (Streams.len batch)) +:+ " filtered item(s)")).
Proof.
  split.
  - induction streams as [|s rest IH]; cbn; [done | by rewrite IH].
  - intros i stream L.
    rewrite (filter_streams_lookup _ _ _ _ _ L). split.
    + intros ->. cbn [default]. by rewrite filter_data_nil.
    + intros batch -> ->. cbn [default].
      by rewrite filter_data_no_criteria.
Qed.

Lemma filter_streams_lines_witness :
  Streams.filter_streams Streams.demo_streams
    (delete "TRANS_001" Streams.demo_data) Streams.demo_criteria
    !! 1%nat =
  Some "TRANS_001: 0 filtered item(s)".
Proof.
  apply (proj1 (proj2 (filter_streams_lines Streams.demo_streams
                         (delete "TRANS_001" Streams.demo_data)
                         Streams.demo_criteria)
                  1%nat (Streams.init Streams.TransactionStream "TRANS_001")
                  eq_refl)).
  reflexivity.
Defined.

(** X19: [process_batch] keeps the stream's identity and never lowers
    its counter: class and identifier are unchanged, a transaction stream
    counts either the whole batch or nothing, and an event stream always
    counts the whole batch, whatever the items are. *)
Theorem process_batch_invariants self batch :
  let t := snd (Streams.TransactionStream_process_batch self batch) in
  let e := snd (Streams.EventStream_process_batch self batch) in
  Streams.class t = Streams.class self /\
  Streams.stream_id t = Streams.stream_id self /\
  (Streams.processed_count t = Streams.processed_count self \/
   Streams.processed_count t =
   Streams.processed_count self + Z.of_nat (length batch)) /\
  Streams.class e = Streams.class self /\
  Streams.stream_id e = Streams.stream_id self /\
  Streams.processed_count e =
  Streams.processed_count self + Z.of_nat (length batch).
Proof.
  cbn zeta. unfold Streams.TransactionStream_process_batch.
  destruct (Streams.py_sum batch); cbn; split_and!; auto.
Qed.

(** X20: batches add up: an event stream that processes two batches one
    after the other ends as if it had processed them joined, and so does
    a transaction stream when both batches hold numbers only. *)
Theorem process_batch_composes self b1 b2 :
  snd (Streams.EventStream_process_batch
         (snd (Streams.EventStream_process_batch self b1)) b2) =
  snd (Streams.EventStream_process_batch self (b1 ++ b2)) /\
  (Forall Streams.is_number b1 -> Forall Streams.is_number b2 ->
   snd (Streams.TransactionStream_process_batch
          (snd (Streams.TransactionStream_process_batch self b1)) b2) =
   snd (Streams.TransactionStream_process_batch self (b1 ++ b2))).
Proof.
  split.
  - cbn. f_equal. unfold Streams.len. rewrite length_app. lia.
  - intros F1 F2.
    rewrite (transaction_state self b1 F1), (transaction_state _ b2 F2).
    rewrite (transaction_state self (b1 ++ b2)) by by apply Forall_app.
    cbn. f_equal. rewrite length_app. lia.
Qed.

Lemma process_batch_composes_witness :
  snd (Streams.TransactionStream_process_batch
         (snd (Streams.TransactionStream_process_batch
                 (Streams.init Streams.TransactionStream "TRANS_001")
                 [VInt 100; VInt 150]))
         [VInt (-75)]) =
  snd (Streams.TransactionStream_process_batch
         (Streams.init Streams.TransactionStream "TRANS_001")
         ([VInt 100; VInt 150] ++ [VInt (-75)])).
Proof.
  apply (proj2 (process_batch_composes
                  (Streams.init Streams.TransactionStream "TRANS_001")
                  [VInt 100; VInt 150] [VInt (-75)]));
    repeat constructor; by eexists.
Defined.

(** * Properties of the data processors *)

Lemma append_nonempty (a b : string) : a <> "" -> a +:+ b <> "".
Proof. destruct a; [done|]. discriminate. Qed.

(** X21: the log validator and the log processor agree on strings:
    [validate] answers [True] exactly when [process] has something to
    say, that is when the entry mentions ["ERROR"] or ["INFO"]; what is
    not a string is refused without an exception. *)
Theorem log_validate_iff_processed data :
  (snd (Processors.LogProcessor_validate (VStr data)) = true <->
   Processors.LogProcessor_process data <> "") /\
  (snd (Processors.LogProcessor_validate (VStr data)) = true <->
   Processors.found "ERROR" data = true \/
   Processors.found "INFO" data = true) /\
  (forall other,
      ~ Streams.is_string other ->
      Processors.LogProcessor_validate other = (["Not a log entry"], false)).
Proof.
  unfold Processors.LogProcessor_validate, Processors.LogProcessor_process.
  split_and!.
  - destruct (Processors.found "ERROR" data),
      (Processors.found "INFO" data); cbn; split; try done.
    all: intros _; by apply append_nonempty.
  - destruct (Processors.found "ERROR" data),
      (Processors.found "INFO" data); cbn; split; try done; auto.
    intros [|]; done.
  - intros [| | |s] N; auto. by destruct N.
Qed.

Lemma log_validate_iff_processed_witness :
  Processors.LogProcessor_validate (VInt 45) = (["Not a log entry"], false).
Proof.
  apply (proj2 (proj2 (log_validate_iff_processed ""))). intros [].
Defined.

Lemma found_info_prefixed msg :
  Processors.found "ERROR" ("INFO: " +:+ msg) = Processors.found "ERROR" msg.
Proof. reflexivity. Qed.

(** X22: the log processor strips the level prefix it expects: an entry
    ["ERROR: " + msg] becomes the alert line followed by [msg], and an
    entry ["INFO: " + msg] the info line followed by [msg], unless [msg]
    itself mentions ["ERROR"], in which case it is treated as an error
    and loses its first character. *)
Theorem log_process_strips_prefix msg :
  Processors.LogProcessor_process ("ERROR: " +:+ msg) =
  "[ALERT] ERROR level detected: " +:+ msg /\
  Processors.LogProcessor_process ("INFO: " +:+ msg) =
  if Processors.found "ERROR" msg
  then "[ALERT] ERROR level detected: " +:+ Processors.slice_from 1 msg
  else "[INFO] INFO level detected: " +:+ msg.
Proof.
  split; [reflexivity|].
  unfold Processors.LogProcessor_process.
  rewrite found_info_prefixed.
  by destruct (Processors.found "ERROR" msg).
Qed.

Lemma count_words_app a :
  forall in_word b,
    Processors.count_words in_word (a +:+ " " +:+ b) =
    (Processors.count_words in_word a + Processors.count_words false b)%nat.
Proof.
  induction a as [|c a IH]; intros in_word b; [done|].
  change (String c a +:+ " " +:+ b) with (String c (a +:+ " " +:+ b)).
  cbn [Processors.count_words].
  destruct (Processors.is_space c); [apply IH|].
  destruct in_word; by rewrite IH.
Qed.

(** X23: the text processor counts characters and words: joining two
    texts with a space adds their word counts and their lengths plus one,
    and a text made of spaces only has no word. *)
Theorem text_counts_add a b :
  Processors.count_words false (a +:+ " " +:+ b) =
  (Processors.count_words false a + Processors.count_words false b)%nat /\
  String.length (a +:+ " " +:+ b) =
  (String.length a + 1 + String.length b)%nat /\
  (forall n, Processors.count_words false (String.concat "" (repeat " " n))
             = 0%nat).
Proof.
  split_and!.
  - apply count_words_app.
  - induction a as [|c a IH]; [done|].
    change (String c a +:+ " " +:+ b) with (String c (a +:+ " " +:+ b)).
    cbn [String.length]. by rewrite IH.
  - intros n. induction n as [|n IH]; [done|].
    destruct n as [|n]; [done|]. cbn in *. exact IH.
Qed.
